(** * Trixel contribution client: reconciliation, polling and persistence

    A shallow embedding of [custom_components/trixel_contribution_client]
    ([const.py], [integration_polling_client.py]) together with the
    properties of its reconciliation step, of the per-cycle update
    production and of the way the configuration reaches the helper
    storage. *)

From Stdlib Require Import ZArith QArith Qround Qabs String List Bool Lia.
From Stdlib Require Import Lqa.
From stdpp Require Import base option list gmap strings.

Local Open Scope string_scope.
Local Open Scope list_scope.
Local Open Scope Z_scope.

(* ===================================================================== *)
(** ** Exceptions and fallible code *)
(* ===================================================================== *)

(** The exceptions the modelled code raises or lets through. *)
Inductive Exception :=
| NoHomeError
| NoExistingConfigurationError
| FileNotFoundError
| KeyError
| ValueError
| TypeError
| HomeAssistantError.

Inductive Result (A : Type) :=
| Ok (a : A)
| Raise (e : Exception).
Arguments Ok {A} a.
Arguments Raise {A} e.

Definition result_bind {A B} (m : Result A) (k : A -> Result B) : Result B :=
  match m with
  | Ok a => k a
  | Raise e => Raise e
  end.

Notation "'try!' x := m 'in' k" := (result_bind m (fun x => k))
  (at level 10, x pattern, m at level 100, k at level 200).

(* ===================================================================== *)
(** ** const.py *)
(* ===================================================================== *)

(** [trixelserviceclient.schema.MeasurementType]: the enumeration is
    declared by the client library; its members are the keys of
    [MEASUREMENT_TYPE_MAPPING], in declaration order. *)
Inductive MeasurementType :=
| AMBIENT_TEMPERATURE
| RELATIVE_HUMIDITY.

#[global] Instance MeasurementType_eq_dec : EqDecision MeasurementType.
Proof. solve_decision. Defined.

(** [for measurement_type in MeasurementType]. *)
Definition MeasurementType_members : list MeasurementType :=
  [AMBIENT_TEMPERATURE; RELATIVE_HUMIDITY].

Definition CONF_TLS_HOST : string := "trixel_lookup_service_host".
Definition CONF_K_REQUIREMENT : string := "k_privacy".
Definition CONF_MAX_TRIXEL_DEPTH : string := "maximum_trixel_depth".
Definition CONF_OUTDOOR_TEMPERATURE_SENSORS : string := "outdoor_temperature_sensors".
Definition CONF_OUTDOOR_RELATIVE_HUMIDITY_SENSORS : string :=
  "outdoor_relative_humidity_sensors".

Definition DEFAULT_HOME_LATITUDE : Q := 523731339 # 10000000.
Definition DEFAULT_HOME_LONGITUDE : Q := 48903147 # 10000000.

(** [homeassistant.components.sensor.const.SensorDeviceClass]. *)
Definition SensorDeviceClass_TEMPERATURE : string := "temperature".
Definition SensorDeviceClass_HUMIDITY : string := "humidity".

(** [homeassistant.const]. *)
Definition ATTR_DEVICE_CLASS : string := "device_class".
Definition ATTR_UNIT_OF_MEASUREMENT : string := "unit_of_measurement".
Definition UnitOfTemperature_CELSIUS : string := "°C".
Definition UnitOfTemperature_FAHRENHEIT : string := "°F".
Definition UnitOfTemperature_KELVIN : string := "K".
Definition UnitOfTemperature : list string :=
  [UnitOfTemperature_CELSIUS; UnitOfTemperature_FAHRENHEIT; UnitOfTemperature_KELVIN].

(** [MEASUREMENT_TYPE_MAPPING], as its [items()] are iterated. *)
Definition MEASUREMENT_TYPE_MAPPING_items : list (MeasurementType * string) :=
  [(AMBIENT_TEMPERATURE, CONF_OUTDOOR_TEMPERATURE_SENSORS);
   (RELATIVE_HUMIDITY, CONF_OUTDOOR_RELATIVE_HUMIDITY_SENSORS)].

(** [MEASUREMENT_TYPE_MAPPING.get(measurement_type)]. *)
Definition MEASUREMENT_TYPE_MAPPING_get (measurement_type : MeasurementType)
  : option string :=
  snd <$> List.find (fun kv => bool_decide (fst kv = measurement_type))
                    MEASUREMENT_TYPE_MAPPING_items.

(** [MEASUREMENT_TYPE_DEVICE_CLASS_MAPPING[measurement_type]]. *)
Definition MEASUREMENT_TYPE_DEVICE_CLASS_MAPPING (measurement_type : MeasurementType)
  : string :=
  match measurement_type with
  | AMBIENT_TEMPERATURE => SensorDeviceClass_TEMPERATURE
  | RELATIVE_HUMIDITY => SensorDeviceClass_HUMIDITY
  end.

(* ===================================================================== *)
(** ** Data model *)
(* ===================================================================== *)

(** Modelled from the spec: [trixelserviceclient.schema.Sensor] is declared
    by the client library; [AnnotatedSensor] adds [entity_id] to it.  The
    record carries the measurement type, the identifier assigned by the
    remote service (absent before registration) and the local entity id.
    Being a dataclass, two sensors are equal when all fields are. *)
Record AnnotatedSensor := {
  measurement_type : MeasurementType;
  sensor_id : option Z;
  entity_id : option string
}.

#[global] Instance AnnotatedSensor_eq_dec : EqDecision AnnotatedSensor.
Proof. solve_decision. Defined.

Record Coordinate := {
  latitude : Q;
  longitude : Q
}.

(** Modelled from the spec: [trixelserviceclient.schema.ClientConfig] is
    declared by the client library.  [ms_config] is the registration record
    (uuid, token) which [load_client_config] rebuilds and which this
    integration only carries along. *)
Record ClientConfig := {
  location : Coordinate;
  tls_host : string;
  k : Z;
  max_depth : Z;
  ms_config : option (string * string);
  sensors : list AnnotatedSensor
}.

(** The [data] part of a config entry (STEP_GENERAL_CONFIG_FIXED_SCHEMA). *)
Record EntryData := {
  trixel_lookup_service_host : string;
  tls_use_https : bool;
  tms_use_https : bool
}.

(** The [options] part of a config entry (STEP_GENERAL_CONFIG_SCHEMA and
    STEP_SELECT_SENSOR): the entity selectors yield lists of entity ids. *)
Record EntryOptions := {
  update_interval : Z;
  k_privacy : Z;
  maximum_trixel_depth : Z;
  outdoor_temperature_sensors : list string;
  outdoor_relative_humidity_sensors : list string
}.

(** [options[key]] for the keys that hold entity id lists; [None] stands for
    the [KeyError] of a key the dictionary does not have. *)
Definition options_getitem (options : EntryOptions) (key : option string)
  : option (list string) :=
  match key with
  | Some key =>
      if bool_decide (key = CONF_OUTDOOR_TEMPERATURE_SENSORS)
      then Some (outdoor_temperature_sensors options)
      else if bool_decide (key = CONF_OUTDOOR_RELATIVE_HUMIDITY_SENSORS)
      then Some (outdoor_relative_humidity_sensors options)
      else None
  | None => None
  end.

(** A Python value that is either text or a number, as [State.state] is used
    by [_get_updates]: compared with the sentinels, then handed to the
    temperature converter. *)
Inductive PyValue :=
| PyStr (s : string)
| PyFloat (q : Q).

(** [homeassistant.core.State], the fields [_get_updates] reads.
    [last_reported] is the POSIX timestamp of the datetime, in seconds. *)
Record State := {
  state : PyValue;
  attributes : gmap string string;
  last_reported : Q
}.

(** [homeassistant.core.HomeAssistant]: the configured home location and the
    state machine. *)
Record HomeAssistant := {
  config_latitude : Q;
  config_longitude : Q;
  states : gmap string State
}.

(** One entry of the batch: [(measurement_timestamp, value)]. *)
Abbreviation Update := (Z * option PyValue)%type.

Record IntegrationPollingClient := {
  hass : HomeAssistant;
  _config : ClientConfig;
  _last_timestamps : gmap (option Z) Z
}.

(* ===================================================================== *)
(** ** The helper storage *)
(* ===================================================================== *)

(** What is done to the [Store] under [STORAGE_KEY_CONFIG]. *)
Inductive StoreOp :=
| async_load
| async_save (document : ClientConfig)
| async_remove.

(** The persisted document, kept typed (what [asdict] writes for a
    configuration is the configuration, field by field), and the journal of
    the operations performed so far, oldest first. *)
Record Storage := {
  document : option ClientConfig;
  journal : list StoreOp
}.

(** Code that awaits the storage: it threads the storage and may raise. *)
Definition Async (A : Type) : Type := Storage -> Result A * Storage.

Definition async_ret {A} (a : A) : Async A := fun st => (Ok a, st).

Definition async_raise {A} (e : Exception) : Async A := fun st => (Raise e, st).

Definition async_bind {A B} (m : Async A) (k : A -> Async B) : Async B :=
  fun st =>
    match m st with
    | (Ok a, st') => k a st'
    | (Raise e, st') => (Raise e, st')
    end.

(** [try: m except FileNotFoundError: handler]. *)
Definition async_except_FileNotFoundError {A} (m : Async A) (handler : Async A)
  : Async A :=
  fun st =>
    match m st with
    | (Raise FileNotFoundError, st') => handler st'
    | r => r
    end.

Definition async_lift {A} (r : Result A) : Async A := fun st => (r, st).

Notation "'await!' x := m 'in' k" := (async_bind m (fun x => k))
  (at level 10, x pattern, m at level 100, k at level 200).

Definition store_async_load : Async (option ClientConfig) :=
  fun st =>
    (Ok (document st),
     {| document := document st; journal := journal st ++ [async_load] |}).

Definition store_async_save (d : ClientConfig) : Async unit :=
  fun st =>
    (Ok tt, {| document := Some d; journal := journal st ++ [async_save d] |}).

Definition store_async_remove : Async unit :=
  fun st =>
    (Ok tt, {| document := None; journal := journal st ++ [async_remove] |}).

(** [load_client_config]: the stored dictionary is turned back into the
    typed configuration.  On the typed document the rebuilding of the
    location and of the sensors gives back what was stored;
    [MeasurementStationConfig(...)] unpacks the stored [ms_config] with a
    double star, which raises [TypeError] when it is [None]. *)
Definition load_client_config : Async ClientConfig :=
  await! config_dict := store_async_load in
  match config_dict with
  | None => async_raise FileNotFoundError
  | Some client_config =>
      match ms_config client_config with
      | None => async_raise TypeError
      | Some _ => async_ret client_config
      end
  end.

(* ===================================================================== *)
(** ** IntegrationPollingClient.create *)
(* ===================================================================== *)

(** [entity_id in entity_ids], for a sensor's entity id (which may be
    [None]) and a list of entity id strings. *)
Definition entity_id_in (e_id : option string) (entity_ids : list string) : bool :=
  match e_id with
  | Some e => bool_decide (e ∈ entity_ids)
  | None => false
  end.

(** The flag [entity_used] after the loop over [client_config.sensors]. *)
Definition entity_used (client_sensors : list AnnotatedSensor)
    (m_type : MeasurementType) (e_id : string) : bool :=
  fold_left
    (fun used sensor =>
       if bool_decide (measurement_type sensor = m_type)
          && bool_decide (entity_id sensor = Some e_id)
       then true else used)
    client_sensors false.

(** One round of the loop over the measurement types: the entity ids that
    no sensor uses are appended to [new_sensors], and [orphaned_sensors] is
    extended with one entry per configured sensor ([None] for a sensor that
    stays). *)
Definition find_differences_for (client_sensors : list AnnotatedSensor)
    (entity_ids : list string) (m_type : MeasurementType)
    (acc : list (option AnnotatedSensor) * list (MeasurementType * string))
  : list (option AnnotatedSensor) * list (MeasurementType * string) :=
  let '(orphaned_sensors, new_sensors) := acc in
  let new_sensors :=
    fold_left
      (fun new_sensors e_id =>
         if negb (entity_used client_sensors m_type e_id)
         then new_sensors ++ [(m_type, e_id)]
         else new_sensors)
      entity_ids new_sensors in
  let orphaned_sensors :=
    orphaned_sensors ++
    ((fun sensor =>
        if bool_decide (measurement_type sensor = m_type)
           && negb (entity_id_in (entity_id sensor) entity_ids)
        then Some sensor else None)
     <$> client_sensors) in
  (orphaned_sensors, new_sensors).

(** "Find differences between the new and an existing user configuration":
    the pair [(orphaned_sensors, new_sensors)]. *)
Definition find_differences (client_sensors : list AnnotatedSensor)
    (options : EntryOptions)
  : Result (list (option AnnotatedSensor) * list (MeasurementType * string)) :=
  fold_left
    (fun acc m_type =>
       try! acc := acc in
       match options_getitem options (MEASUREMENT_TYPE_MAPPING_get m_type) with
       | None => Raise KeyError
       | Some entity_ids =>
           Ok (find_differences_for client_sensors entity_ids m_type acc)
       end)
    MeasurementType_members (Ok ([], [])).

(** [list.remove(x)]: drops the first element equal to [x]; [ValueError]
    when there is none. *)
Fixpoint list_remove (x : AnnotatedSensor) (l : list AnnotatedSensor)
  : Result (list AnnotatedSensor) :=
  match l with
  | [] => Raise ValueError
  | y :: l' =>
      if bool_decide (y = x) then Ok l'
      else try! r := list_remove x l' in Ok (y :: r)
  end.

(** "Remove orphaned user configuration sensors from the client config". *)
Definition remove_orphaned (orphaned_sensors : list (option AnnotatedSensor))
    (client_sensors : list AnnotatedSensor) : Result (list AnnotatedSensor) :=
  fold_left
    (fun acc sensor =>
       try! client_sensors := acc in
       match sensor with
       | Some sensor => list_remove sensor client_sensors
       | None => Ok client_sensors
       end)
    orphaned_sensors (Ok client_sensors).

(** [AnnotatedSensor(measurement_type=..., entity_id=...)]. *)
Definition new_sensor (m_type : MeasurementType) (e_id : string) : AnnotatedSensor :=
  {| measurement_type := m_type; sensor_id := None; entity_id := Some e_id |}.

(** "Add new sensors using a basic configuration". *)
Definition add_new_sensors (new_sensors : list (MeasurementType * string))
    (client_sensors : list AnnotatedSensor) : list AnnotatedSensor :=
  fold_left
    (fun client_sensors '(m_type, e_id) => client_sensors ++ [new_sensor m_type e_id])
    new_sensors client_sensors.

(** The reconciliation of [create]: the sensor list after the differences
    with [options] have been found and applied. *)
Definition reconcile_sensors (client_sensors : list AnnotatedSensor)
    (options : EntryOptions) : Result (list AnnotatedSensor) :=
  try! diff := find_differences client_sensors options in
  let '(orphaned_sensors, new_sensors) := diff in
  try! client_sensors := remove_orphaned orphaned_sensors client_sensors in
  Ok (add_new_sensors new_sensors client_sensors).

(** The sensor list of a fresh configuration. *)
Definition fresh_sensors (options : EntryOptions) : Result (list AnnotatedSensor) :=
  fold_left
    (fun acc '(m_type, conf_value) =>
       try! sensors := acc in
       match options_getitem options (Some conf_value) with
       | None => Raise KeyError
       | Some entities => Ok (sensors ++ (new_sensor m_type <$> entities))
       end)
    MEASUREMENT_TYPE_MAPPING_items (Ok []).

(** Truthiness of a float: [not x] holds of zero. *)
Definition py_not (x : Q) : bool := Qeq_bool x 0.

(** The guard of [create] that raises [NoHomeError]. *)
Definition no_home (hass : HomeAssistant) : bool :=
  (py_not (config_latitude hass) && py_not (config_longitude hass))
  || (Qeq_bool (config_latitude hass) DEFAULT_HOME_LATITUDE
      && Qeq_bool (config_longitude hass) DEFAULT_HOME_LONGITUDE).

Definition hass_coordinate (hass : HomeAssistant) : Coordinate :=
  {| latitude := config_latitude hass; longitude := config_longitude hass |}.

Definition set_location (c : ClientConfig) (l : Coordinate) : ClientConfig :=
  {| location := l; tls_host := tls_host c; k := k c; max_depth := max_depth c;
     ms_config := ms_config c; sensors := sensors c |}.

Definition set_k_max_depth (c : ClientConfig) (new_k new_max_depth : Z) : ClientConfig :=
  {| location := location c; tls_host := tls_host c; k := new_k;
     max_depth := new_max_depth; ms_config := ms_config c; sensors := sensors c |}.

Definition set_sensors (c : ClientConfig) (l : list AnnotatedSensor) : ClientConfig :=
  {| location := location c; tls_host := tls_host c; k := k c;
     max_depth := max_depth c; ms_config := ms_config c; sensors := l |}.

(** The [try] block of [create]: load the persisted configuration and bring
    it in line with the host location and the options. *)
Definition create_from_storage (hass : HomeAssistant) (options : option EntryOptions)
  : Async ClientConfig :=
  await! client_config := load_client_config in
  let client_config := set_location client_config (hass_coordinate hass) in
  match options with
  | Some options =>
      let client_config :=
        set_k_max_depth client_config (k_privacy options) (maximum_trixel_depth options) in
      await! client_sensors :=
        async_lift (reconcile_sensors (sensors client_config) options) in
      async_ret (set_sensors client_config client_sensors)
  | None => async_ret client_config
  end.

(** The [except FileNotFoundError] block of [create]. *)
Definition create_fresh (hass : HomeAssistant) (data : option EntryData)
    (options : option EntryOptions) : Async ClientConfig :=
  match data, options with
  | Some data, Some options =>
      await! fresh := async_lift (fresh_sensors options) in
      async_ret
        {| location := hass_coordinate hass;
           tls_host := trixel_lookup_service_host data;
           k := k_privacy options;
           max_depth := maximum_trixel_depth options;
           ms_config := None;
           sensors := fresh |}
  | _, _ => async_raise NoExistingConfigurationError
  end.

(** [IntegrationPollingClient.create]. *)
Definition create (hass : HomeAssistant) (data : option EntryData)
    (options : option EntryOptions) : Async IntegrationPollingClient :=
  if no_home hass then async_raise NoHomeError
  else
    await! client_config :=
      async_except_FileNotFoundError
        (create_from_storage hass options)
        (create_fresh hass data options) in
    async_ret {| hass := hass; _config := client_config; _last_timestamps := ∅ |}.

(** [IntegrationPollingClient._persist_config]. *)
Definition _persist_config (self : IntegrationPollingClient) : Async unit :=
  store_async_save (_config self).

(* ===================================================================== *)
(** ** IntegrationPollingClient._get_updates *)
(* ===================================================================== *)

(** [hass.states.get(sensor.entity_id)]; no state is found for a sensor
    without an entity id. *)
Definition states_get (hass : HomeAssistant) (e_id : option string) : option State :=
  match e_id with
  | Some e => states hass !! e
  | None => None
  end.

(** [state.attributes[key]]: a missing key raises [KeyError]. *)
Definition attributes_getitem (st : State) (key : string) : Result string :=
  match attributes st !! key with
  | Some v => Ok v
  | None => Raise KeyError
  end.

(** [state.state in ("unavailable", "unknown")]. *)
Definition is_sentinel (v : PyValue) : bool :=
  match v with
  | PyStr s => bool_decide (s = "unavailable") || bool_decide (s = "unknown")
  | PyFloat _ => false
  end.

(** Degrees Celsius of a temperature given in a recognised unit. *)
Definition to_celsius (q : Q) (from_unit : string) : Result Q :=
  if bool_decide (from_unit = UnitOfTemperature_CELSIUS) then Ok q
  else if bool_decide (from_unit = UnitOfTemperature_FAHRENHEIT)
  then Ok ((q - 32) / (18 # 10))%Q
  else if bool_decide (from_unit = UnitOfTemperature_KELVIN)
  then Ok (q - (27315 # 100))%Q
  else Raise HomeAssistantError.

(** A temperature in degrees Celsius expressed in a recognised unit. *)
Definition from_celsius (q : Q) (to_unit : string) : Result Q :=
  if bool_decide (to_unit = UnitOfTemperature_CELSIUS) then Ok q
  else if bool_decide (to_unit = UnitOfTemperature_FAHRENHEIT)
  then Ok (q * (18 # 10) + 32)%Q
  else if bool_decide (to_unit = UnitOfTemperature_KELVIN)
  then Ok (q + (27315 # 100))%Q
  else Raise HomeAssistantError.

(** Modelled from the spec: [TemperatureConverter.convert] belongs to Home
    Assistant ([homeassistant.util.unit_conversion]), not to this
    repository.  It is the standard affine conversion between degrees
    Celsius, degrees Fahrenheit and Kelvin, over exact rationals in place of
    floats; a unit that is not a temperature unit is refused, and so is a
    value that is not a number, on which the arithmetic is not defined. *)
Definition TemperatureConverter_convert (value : PyValue) (from_unit to_unit : string)
  : Result PyValue :=
  match value with
  | PyFloat q =>
      try! c := to_celsius q from_unit in
      try! r := from_celsius c to_unit in
      Ok (PyFloat r)
  | PyStr _ => Raise TypeError
  end.

(** [round(x)] on a float: to the nearest integer, ties to the even one. *)
Definition py_round (x : Q) : Z :=
  let f := Qfloor x in
  match (x - inject_Z f ?= 1 # 2)%Q with
  | Lt => f
  | Gt => f + 1
  | Eq => if Z.even f then f else f + 1
  end.

(** [int(round(state.last_reported.astimezone(UTC).timestamp()))]. *)
Definition measurement_timestamp (st : State) : Z := py_round (last_reported st).

(** The body of the loop of [_get_updates] up to the timestamp: [Ok None]
    when the sensor is skipped with a warning ([continue]), otherwise the
    timestamp and the value the sensor contributes, or the exception that
    escapes. *)
Definition _get_updates_reading (hass : HomeAssistant) (sensor : AnnotatedSensor)
  : Result (option Update) :=
  match states_get hass (entity_id sensor) with
  | None => Ok None
  | Some st =>
      let value := if is_sentinel (state st) then None else Some (state st) in
      try! device_class := attributes_getitem st ATTR_DEVICE_CLASS in
      if negb (bool_decide
                 (device_class
                  = MEASUREMENT_TYPE_DEVICE_CLASS_MAPPING (measurement_type sensor)))
      then Ok None
      else
        try! wrong_unit :=
          (if bool_decide (measurement_type sensor = AMBIENT_TEMPERATURE)
           then try! unit := attributes_getitem st ATTR_UNIT_OF_MEASUREMENT in
                Ok (negb (bool_decide (unit ∈ UnitOfTemperature)))
           else Ok false) in
        if wrong_unit then Ok None
        else
          try! device_class := attributes_getitem st ATTR_DEVICE_CLASS in
          try! value :=
            (match bool_decide (device_class = SensorDeviceClass_TEMPERATURE), value with
             | true, Some v =>
                 try! unit := attributes_getitem st ATTR_UNIT_OF_MEASUREMENT in
                 try! converted :=
                   TemperatureConverter_convert v unit UnitOfTemperature_CELSIUS in
                 Ok (Some converted)
             | _, _ => Ok value
             end) in
          Ok (Some (measurement_timestamp st, value))
  end.

(** The loop of [_get_updates] over the sensors.  [self._last_timestamps] is
    updated in place, so the cache is returned whether or not an exception
    ends the loop. *)
Fixpoint _get_updates_loop (hass : HomeAssistant) (client_sensors : list AnnotatedSensor)
    (last_timestamps : gmap (option Z) Z) (updates : gmap (option Z) Update)
  : Result (gmap (option Z) Update) * gmap (option Z) Z :=
  match client_sensors with
  | [] => (Ok updates, last_timestamps)
  | sensor :: rest =>
      match _get_updates_reading hass sensor with
      | Raise e => (Raise e, last_timestamps)
      | Ok None => _get_updates_loop hass rest last_timestamps updates
      | Ok (Some (timestamp, value)) =>
          if bool_decide
               (timestamp ≠ default 0 (last_timestamps !! sensor_id sensor))
          then _get_updates_loop hass rest
                 (<[sensor_id sensor := timestamp]> last_timestamps)
                 (<[sensor_id sensor := (timestamp, value)]> updates)
          else _get_updates_loop hass rest last_timestamps updates
      end
  end.

Definition set_last_timestamps (self : IntegrationPollingClient)
    (last_timestamps : gmap (option Z) Z) : IntegrationPollingClient :=
  {| hass := hass self; _config := _config self; _last_timestamps := last_timestamps |}.

(** [IntegrationPollingClient._get_updates]: the batch (or the exception)
    and the client with its cache as the call leaves it. *)
Definition _get_updates (self : IntegrationPollingClient)
  : Result (gmap (option Z) Update) * IntegrationPollingClient :=
  let '(r, last_timestamps) :=
    _get_updates_loop (hass self) (sensors (_config self)) (_last_timestamps self) ∅ in
  (r, set_last_timestamps self last_timestamps).

(** The state machine of the host changes between polling ticks. *)
Definition set_states (self : IntegrationPollingClient) (sts : gmap string State)
  : IntegrationPollingClient :=
  {| hass := {| config_latitude := config_latitude (hass self);
                config_longitude := config_longitude (hass self);
                states := sts |};
     _config := _config self;
     _last_timestamps := _last_timestamps self |}.

(** Successive calls of [_get_updates], one per polling tick, each on the
    states the host holds at that tick: the outcome of every call, and the
    client after the last one. *)
Fixpoint polling_ticks (self : IntegrationPollingClient)
    (snapshots : list (gmap string State))
  : list (Result (gmap (option Z) Update)) * IntegrationPollingClient :=
  match snapshots with
  | [] => ([], self)
  | sts :: later =>
      let '(r, self) := _get_updates (set_states self sts) in
      let '(rs, self) := polling_ticks self later in
      (r :: rs, self)
  end.

(** Whether a call produced a batch that holds an entry for [sid]. *)
Definition emitted (sid : option Z) (r : Result (gmap (option Z) Update)) : bool :=
  match r with
  | Ok updates => bool_decide (is_Some (updates !! sid))
  | Raise _ => false
  end.

(* ===================================================================== *)
(** ** Vocabulary of the properties *)
(* ===================================================================== *)

(** The entity ids the options ask for under a measurement type. *)
Definition desired (options : EntryOptions) (m_type : MeasurementType) : list string :=
  match m_type with
  | AMBIENT_TEMPERATURE => outdoor_temperature_sensors options
  | RELATIVE_HUMIDITY => outdoor_relative_humidity_sensors options
  end.

(** A sensor supplies [e_id] under [m_type]. *)
Definition supplies (m_type : MeasurementType) (e_id : string)
    (sensor : AnnotatedSensor) : Prop :=
  measurement_type sensor = m_type ∧ entity_id sensor = Some e_id.

(** The entity id of a sensor is still asked for under its own type. *)
Definition still_desired (options : EntryOptions) (sensor : AnnotatedSensor) : Prop :=
  entity_id_in (entity_id sensor) (desired options (measurement_type sensor)) = true.

#[global] Instance still_desired_dec options sensor :
  Decision (still_desired options sensor).
Proof. unfold still_desired. apply _. Defined.

(** The join key of the reconciliation. *)
Definition sensor_key (sensor : AnnotatedSensor) : MeasurementType * option string :=
  (measurement_type sensor, entity_id sensor).

(** At most one sensor per (measurement type, entity id) pair. *)
Definition unique_pairs (client_sensors : list AnnotatedSensor) : Prop :=
  NoDup (sensor_key <$> client_sensors).

(** The entries of [orphaned_sensors] a round over [m_type] contributes. *)
Definition orphan_marks (client_sensors : list AnnotatedSensor)
    (entity_ids : list string) (m_type : MeasurementType)
  : list (option AnnotatedSensor) :=
  (fun sensor =>
     if bool_decide (measurement_type sensor = m_type)
        && negb (entity_id_in (entity_id sensor) entity_ids)
     then Some sensor else None)
  <$> client_sensors.

(** The entries of [new_sensors] a round over [m_type] contributes. *)
Definition unused_entities (client_sensors : list AnnotatedSensor)
    (entity_ids : list string) (m_type : MeasurementType)
  : list (MeasurementType * string) :=
  pair m_type <$> filter (fun e_id => entity_used client_sensors m_type e_id = false)
                         entity_ids.

(** The additions of a reconciliation, over all measurement types. *)
Definition additions (client_sensors : list AnnotatedSensor) (options : EntryOptions)
  : list (MeasurementType * string) :=
  unused_entities client_sensors (desired options AMBIENT_TEMPERATURE) AMBIENT_TEMPERATURE
  ++ unused_entities client_sensors (desired options RELATIVE_HUMIDITY) RELATIVE_HUMIDITY.

(* ===================================================================== *)
(** ** Sample configurations *)
(* ===================================================================== *)

Definition sample_options (temperature humidity : list string) : EntryOptions :=
  {| update_interval := 60;
     k_privacy := 3;
     maximum_trixel_depth := 24;
     outdoor_temperature_sensors := temperature;
     outdoor_relative_humidity_sensors := humidity |}.

(** A registered temperature sensor fed by [sensor.a]. *)
Definition sensor_a : AnnotatedSensor :=
  {| measurement_type := AMBIENT_TEMPERATURE;
     sensor_id := Some 1;
     entity_id := Some "sensor.a" |}.

(** A registered humidity sensor fed by [sensor.h]. *)
Definition sensor_h : AnnotatedSensor :=
  {| measurement_type := RELATIVE_HUMIDITY;
     sensor_id := Some 2;
     entity_id := Some "sensor.h" |}.

(** The host has no location set: both coordinates are zero, which is how
    an unset coordinate reads and what [not] tests. *)
Definition location_unset (hass : HomeAssistant) : Prop :=
  (config_latitude hass == 0)%Q /\ (config_longitude hass == 0)%Q.

(** The host location is the placeholder of the onboarding. *)
Definition location_is_placeholder (hass : HomeAssistant) : Prop :=
  (config_latitude hass == DEFAULT_HOME_LATITUDE)%Q
  /\ (config_longitude hass == DEFAULT_HOME_LONGITUDE)%Q.

(** A host at a given location with no entity states. *)
Definition host_at (lat lon : Q) : HomeAssistant :=
  {| config_latitude := lat; config_longitude := lon; states := ∅ |}.

Definition sample_data : EntryData :=
  {| trixel_lookup_service_host := "tls.example.org";
     tls_use_https := true;
     tms_use_https := true |}.

(** A persisted configuration with the humidity sensor only. *)
Definition sample_config : ClientConfig :=
  {| location := {| latitude := 48; longitude := 11 |};
     tls_host := "tls.example.org";
     k := 3;
     max_depth := 24;
     ms_config := Some ("uuid", "token");
     sensors := [sensor_h] |}.

Definition storage_with (d : option ClientConfig) : Storage :=
  {| document := d; journal := [] |}.

(** The emit decisions of the cache for one sensor id over successive
    timestamps, [last] being the last recorded timestamp (0 when the sensor
    id was never seen): a timestamp is emitted when it differs from the last
    recorded one, and is then the recorded one. *)
Fixpoint emit_decisions (last : Z) (timestamps : list Z) : list bool :=
  match timestamps with
  | [] => []
  | timestamp :: later =>
      bool_decide (timestamp ≠ last) :: emit_decisions timestamp later
  end.

(** No other configured sensor carries the sensor id [sid]. *)
Definition id_not_shared (sid : option Z) (others : list AnnotatedSensor) : Prop :=
  Forall (fun other => sensor_id other ≠ sid) others.

(** A humidity reading of [sensor.h]: the value and the time it was
    reported at. *)
Definition humidity_state (q : Q) (reported : Z) : State :=
  {| state := PyFloat q;
     attributes := {[ATTR_DEVICE_CLASS := SensorDeviceClass_HUMIDITY]};
     last_reported := inject_Z reported |}.

(** A client that contributes the humidity sensor only, with an empty
    cache. *)
Definition humidity_client : IntegrationPollingClient :=
  {| hass := host_at 48 11; _config := sample_config; _last_timestamps := ∅ |}.

(** The states of the host at four successive ticks: [sensor.h] reports at
    100, 100, 101 and 100 seconds. *)
Definition humidity_snapshots : list (gmap string State) :=
  (fun reported => {["sensor.h" := humidity_state 50 reported]})
  <$> [100; 100; 101; 100].

(** The device-class and unit checks of [_get_updates] let the state of a
    sensor through. *)
Definition checks_pass (sensor : AnnotatedSensor) (st : State) : Prop :=
  attributes st !! ATTR_DEVICE_CLASS
  = Some (MEASUREMENT_TYPE_DEVICE_CLASS_MAPPING (measurement_type sensor))
  /\ (measurement_type sensor = AMBIENT_TEMPERATURE ->
      exists unit, attributes st !! ATTR_UNIT_OF_MEASUREMENT = Some unit
                   /\ unit ∈ UnitOfTemperature).

(** The checks turn the state down: a device class other than the one the
    measurement type asks for, or a unit that is no temperature unit on a
    temperature sensor. *)
Definition checks_reject (sensor : AnnotatedSensor) (st : State) : Prop :=
  (exists device_class,
     attributes st !! ATTR_DEVICE_CLASS = Some device_class
     /\ device_class ≠ MEASUREMENT_TYPE_DEVICE_CLASS_MAPPING (measurement_type sensor))
  \/ (attributes st !! ATTR_DEVICE_CLASS
      = Some (MEASUREMENT_TYPE_DEVICE_CLASS_MAPPING (measurement_type sensor))
      /\ measurement_type sensor = AMBIENT_TEMPERATURE
      /\ exists unit, attributes st !! ATTR_UNIT_OF_MEASUREMENT = Some unit
                      /\ unit ∉ UnitOfTemperature).

(** A temperature state of [sensor.a]. *)
Definition temperature_state (value : PyValue) (unit : string) (reported : Z) : State :=
  {| state := value;
     attributes := {[ATTR_DEVICE_CLASS := SensorDeviceClass_TEMPERATURE;
                     ATTR_UNIT_OF_MEASUREMENT := unit]};
     last_reported := inject_Z reported |}.

(** A state of [sensor.a] that carries no attribute at all. *)
Definition bare_state (value : PyValue) (reported : Z) : State :=
  {| state := value; attributes := ∅; last_reported := inject_Z reported |}.

(** A client that contributes the humidity sensor and the temperature
    sensor, in this order, with an empty cache, on a host with the given
    states. *)
Definition two_sensor_client (sts : gmap string State) : IntegrationPollingClient :=
  {| hass := {| config_latitude := 48; config_longitude := 11; states := sts |};
     _config := set_sensors sample_config [sensor_h; sensor_a];
     _last_timestamps := ∅ |}.

(** Host states in which [sensor.h] reports 50 at 100 s and [sensor.a], in
    degrees Fahrenheit, reports the given value at 101 s. *)
Definition states_with_temperature (value : PyValue) : gmap string State :=
  {["sensor.h" := humidity_state 50 100;
    "sensor.a" := temperature_state value UnitOfTemperature_FAHRENHEIT 101]}.

(** Three ticks at which [sensor.h] reports at the epoch itself. *)
Definition epoch_snapshots : list (gmap string State) :=
  replicate 3 {["sensor.h" := humidity_state 50 0]}.

(** Host states in which [sensor.h] reports 50 at 100 s and [sensor.a]
    reports 20 at 101 s without any attribute. *)
Definition states_with_bare_temperature : gmap string State :=
  {["sensor.h" := humidity_state 50 100;
    "sensor.a" := bare_state (PyFloat 20) 101]}.

(** The sensor is not skipped by the loop of [_get_updates]: its state is
    there and the checks did not turn it down. *)
Definition contributes (hass : HomeAssistant) (sensor : AnnotatedSensor) : bool :=
  match _get_updates_reading hass sensor with
  | Ok None => false
  | _ => true
  end.

(** The client with another sensor list. *)
Definition with_sensors (self : IntegrationPollingClient)
    (client_sensors : list AnnotatedSensor) : IntegrationPollingClient :=
  {| hass := hass self;
     _config := set_sensors (_config self) client_sensors;
     _last_timestamps := _last_timestamps self |}.

(* ===================================================================== *)
(** ** config_flow.py *)
(* ===================================================================== *)

Definition CONF_TLS_USE_HTTPS : string := "tls_use_https".
Definition CONF_TMS_USE_HTTPS : string := "tms_use_https".

(** [validate_sensor_count]: the user input of the sensor selection maps
    each selector key to the list of selected entity ids; the result is the
    error dictionary, or [None] when the selection is accepted. *)
Definition validate_sensor_count (user_input : gmap string (list string))
  : option (gmap string string) :=
  let sensor_count := sum_list (length <$> (map_to_list user_input).*2) in
  if bool_decide (sensor_count = 0%nat)
  then Some {["base" := "not_enough_sensors"]}
  else None.

(** [data_keys] of [retrieve_data_and_options]. *)
Definition data_keys : gset string :=
  {[CONF_TLS_HOST; CONF_TLS_USE_HTTPS; CONF_TMS_USE_HTTPS]}.

(** [{key: user_config[key] for key in keys}]: a key that [user_config]
    does not have raises [KeyError]. *)
Definition dict_of_keys {V : Type} (user_config : gmap string V) (keys : list string)
  : Result (gmap string V) :=
  fold_left
    (fun acc key =>
       try! d := acc in
       match user_config !! key with
       | Some v => Ok (<[key := v]> d)
       | None => Raise KeyError
       end)
    keys (Ok ∅).

(** [retrieve_data_and_options]: the keys of [data] are
    [user_config.keys() & data_keys], those of [options] are the symmetric
    difference [user_config.keys() ^ data_keys]. *)
Definition retrieve_data_and_options {V : Type} (user_config : gmap string V)
  : Result (gmap string V * gmap string V) :=
  try! data := dict_of_keys user_config (elements (dom user_config ∩ data_keys)) in
  try! options :=
    dict_of_keys user_config
      (elements ((dom user_config ∖ data_keys) ∪ (data_keys ∖ dom user_config))) in
  Ok (data, options).

(* ===================================================================== *)
(** ** IntegrationPollingClient.run and __init__.py *)
(* ===================================================================== *)

(** The keyword arguments [run] hands to [PollingClient.run]; intervals in
    seconds. *)
Record RunArguments := {
  get_updates :
    option (IntegrationPollingClient
            -> Result (gmap (option Z) Update) * IntegrationPollingClient);
  retry_interval : Z;
  max_retries : Z;
  polling_interval : Z;
  delete : bool
}.

(** What escapes a call: one of the exceptions of this integration's code,
    or a [BaseError] (or subclass) of the client library. *)
Inductive Escaped :=
| Exception_of (e : Exception)
| BaseError.

(** [PollingClient.run] belongs to the client library: it is a parameter of
    what follows, a function of the client and the arguments that may use
    the storage and ends normally ([None]) or with an exception. *)
Definition PollingClient_run : Type :=
  IntegrationPollingClient -> RunArguments -> Storage -> option Escaped * Storage.

(** [IntegrationPollingClient.run]. *)
Definition run (super_run : PollingClient_run) (self : IntegrationPollingClient)
    (polling_interval_seconds : Z) (delete_station : bool)
  : Storage -> option Escaped * Storage :=
  super_run self
    {| get_updates := if negb delete_station then Some _get_updates else None;
       retry_interval := 30;
       max_retries := 0;
       polling_interval := polling_interval_seconds;
       delete := delete_station |}.

(** [except (BaseError, NoHomeError, NoExistingConfigurationError)]. *)
Definition caught_on_removal (e : Escaped) : bool :=
  match e with
  | BaseError => true
  | Exception_of NoHomeError => true
  | Exception_of NoExistingConfigurationError => true
  | Exception_of _ => false
  end.

(** [async_remove_entry]: the exception that escapes, if any, and the
    storage afterwards.  [run] is called with its default polling interval
    of 60 seconds. *)
Definition async_remove_entry (super_run : PollingClient_run) (hass : HomeAssistant)
  : Storage -> option Escaped * Storage :=
  fun storage =>
    let '(attempt, storage) :=
      match create hass None None storage with
      | (Ok client, storage) => run super_run client 60 true storage
      | (Raise e, storage) => (Some (Exception_of e), storage)
      end in
    match attempt with
    | Some e =>
        if caught_on_removal e
        then let '(_, storage) := store_async_remove storage in (None, storage)
        else (Some e, storage)
    | None => let '(_, storage) := store_async_remove storage in (None, storage)
    end.

(* ===================================================================== *)
(** * Properties *)
(* ===================================================================== *)

(** ** Reconciliation *)

Lemma result_bind_Ok {A B} (m : Result A) (k : A -> Result B) (b : B) :
  result_bind m k = Ok b -> exists a, m = Ok a /\ k a = Ok b.
Proof. destruct m as [a|e]; simpl; [eauto | discriminate]. Qed.

Lemma options_getitem_mapping (options : EntryOptions) (m_type : MeasurementType) :
  options_getitem options (MEASUREMENT_TYPE_MAPPING_get m_type)
  = Some (desired options m_type).
Proof. destruct m_type; reflexivity. Qed.

Lemma entity_used_fold (client_sensors : list AnnotatedSensor) m_type e_id (b : bool) :
  fold_left
    (fun used sensor =>
       if bool_decide (measurement_type sensor = m_type)
          && bool_decide (entity_id sensor = Some e_id)
       then true else used)
    client_sensors b = true
  <-> b = true \/ exists sensor, sensor ∈ client_sensors /\ supplies m_type e_id sensor.
Proof.
  revert b. induction client_sensors as [|s l IH]; intros b; simpl.
  - split; [auto | intros [H | (s & Hs & _)]; [done | by apply elem_of_nil in Hs]].
  - rewrite IH. unfold supplies. split.
    + intros [H | (s' & Hin & Hs')].
      * destruct (bool_decide (measurement_type s = m_type)) eqn:E1;
          destruct (bool_decide (entity_id s = Some e_id)) eqn:E2; simpl in H; auto.
        apply bool_decide_eq_true in E1, E2. right. exists s. split; [left | done].
      * right. exists s'. split; [by right | done].
    + intros [H | (s' & Hin & Hm & He)].
      * left. subst b. by destruct (_ && _).
      * apply elem_of_cons in Hin as [-> | Hin].
        -- left. rewrite !bool_decide_eq_true_2 by done. done.
        -- right. exists s'. done.
Qed.

Lemma entity_used_true (client_sensors : list AnnotatedSensor) m_type e_id :
  entity_used client_sensors m_type e_id = true
  <-> exists sensor, sensor ∈ client_sensors /\ supplies m_type e_id sensor.
Proof.
  unfold entity_used. rewrite entity_used_fold. split; [intros [?|?]; [done|done] | auto].
Qed.

Lemma new_sensors_fold (client_sensors : list AnnotatedSensor) m_type
    (entity_ids : list string) (acc : list (MeasurementType * string)) :
  fold_left
    (fun new_sensors e_id =>
       if negb (entity_used client_sensors m_type e_id)
       then new_sensors ++ [(m_type, e_id)]
       else new_sensors)
    entity_ids acc
  = acc ++ unused_entities client_sensors entity_ids m_type.
Proof.
  unfold unused_entities. revert acc.
  induction entity_ids as [|e l IH]; intros acc.
  - simpl. by rewrite app_nil_r.
  - cbn [fold_left]. rewrite IH, filter_cons.
    destruct (entity_used client_sensors m_type e) eqn:E; simpl.
    + done.
    + by rewrite <- app_assoc.
Qed.

Lemma find_differences_for_eq (client_sensors : list AnnotatedSensor)
    (entity_ids : list string) m_type orphaned_sensors new_sensors :
  find_differences_for client_sensors entity_ids m_type (orphaned_sensors, new_sensors)
  = (orphaned_sensors ++ orphan_marks client_sensors entity_ids m_type,
     new_sensors ++ unused_entities client_sensors entity_ids m_type).
Proof. unfold find_differences_for. by rewrite new_sensors_fold. Qed.

Lemma find_differences_eq (client_sensors : list AnnotatedSensor) (options : EntryOptions) :
  find_differences client_sensors options
  = Ok (orphan_marks client_sensors (desired options AMBIENT_TEMPERATURE)
          AMBIENT_TEMPERATURE
        ++ orphan_marks client_sensors (desired options RELATIVE_HUMIDITY)
             RELATIVE_HUMIDITY,
        additions client_sensors options).
Proof.
  unfold find_differences, MeasurementType_members, additions.
  cbn [fold_left result_bind]. rewrite !options_getitem_mapping.
  cbn [result_bind]. rewrite !find_differences_for_eq. reflexivity.
Qed.

Lemma remove_orphaned_Raise (marks : list (option AnnotatedSensor)) (e : Exception) :
  fold_left
    (fun acc sensor =>
       try! client_sensors := acc in
       match sensor with
       | Some sensor => list_remove sensor client_sensors
       | None => Ok client_sensors
       end)
    marks (Raise e) = Raise e.
Proof. induction marks as [|o l IH]; simpl; [done | apply IH]. Qed.

Lemma remove_orphaned_cons (o : option AnnotatedSensor) marks client_sensors :
  remove_orphaned (o :: marks) client_sensors
  = try! rest := match o with
                 | Some sensor => list_remove sensor client_sensors
                 | None => Ok client_sensors
                 end in
    remove_orphaned marks rest.
Proof.
  unfold remove_orphaned. simpl.
  destruct o as [s|]; simpl; [|done].
  destruct (list_remove s client_sensors); simpl; [done | apply remove_orphaned_Raise].
Qed.

Lemma remove_orphaned_app marks1 marks2 client_sensors :
  remove_orphaned (marks1 ++ marks2) client_sensors
  = try! rest := remove_orphaned marks1 client_sensors in remove_orphaned marks2 rest.
Proof.
  unfold remove_orphaned. rewrite fold_left_app.
  destruct (fold_left _ marks1 (Ok client_sensors)); simpl;
    [done | apply remove_orphaned_Raise].
Qed.

(** Removing sensors that all differ from the head leaves the head alone. *)
Lemma remove_orphaned_skip_head (y : AnnotatedSensor) marks client_sensors :
  Forall (fun o => o ≠ Some y) marks ->
  remove_orphaned marks (y :: client_sensors)
  = try! rest := remove_orphaned marks client_sensors in Ok (y :: rest).
Proof.
  revert client_sensors. induction marks as [|o l IH]; intros cs Hall.
  - reflexivity.
  - apply Forall_cons in Hall as [Ho Hl]. rewrite !remove_orphaned_cons.
    destruct o as [s|]; simpl.
    + rewrite bool_decide_eq_false_2 by congruence.
      destruct (list_remove s cs) as [r|e]; simpl; [by apply IH | done].
    + by apply IH.
Qed.

(** The marks of a decidable property [Q], applied to the sensors that
    satisfy [R], remove exactly those with [Q]. *)
Lemma remove_orphaned_marks (Q R : AnnotatedSensor -> Prop)
    `{!forall s, Decision (Q s), !forall s, Decision (R s)}
    (client_sensors : list AnnotatedSensor) :
  (forall s, Q s -> R s) ->
  remove_orphaned ((fun s => if decide (Q s) then Some s else None) <$> client_sensors)
                  (filter R client_sensors)
  = Ok (filter (fun s => R s ∧ ¬ Q s) client_sensors).
Proof.
  intros HQR. induction client_sensors as [|y l IH]; [reflexivity|].
  rewrite fmap_cons, !filter_cons.
  destruct (decide (Q y)) as [Hq|Hq].
  - rewrite decide_True by auto. rewrite decide_False by tauto.
    rewrite remove_orphaned_cons. simpl.
    rewrite bool_decide_eq_true_2 by done. simpl. apply IH.
  - rewrite remove_orphaned_cons. simpl.
    destruct (decide (R y)) as [Hr|Hr].
    + rewrite decide_True by tauto. rewrite remove_orphaned_skip_head.
      * by rewrite IH.
      * apply Forall_fmap, Forall_forall. intros s _. simpl.
        destruct (decide (Q s)); [|done]. intros [= ->]. done.
    + rewrite decide_False by tauto. apply IH.
Qed.

Lemma filter_all (client_sensors : list AnnotatedSensor) :
  filter (fun _ : AnnotatedSensor => True) client_sensors = client_sensors.
Proof.
  induction client_sensors as [|y l IH]; [done|].
  rewrite filter_cons_True by done. by rewrite IH.
Qed.

Lemma orphan_marks_decide (client_sensors : list AnnotatedSensor) entity_ids m_type :
  orphan_marks client_sensors entity_ids m_type
  = (fun s => if decide (measurement_type s = m_type
                         ∧ entity_id_in (entity_id s) entity_ids = false)
              then Some s else None) <$> client_sensors.
Proof.
  unfold orphan_marks. apply list_fmap_ext. intros _ s _.
  destruct (decide (measurement_type s = m_type)) as [Hm|Hm];
    destruct (entity_id_in (entity_id s) entity_ids) eqn:Hin.
  - rewrite bool_decide_eq_true_2 by done. simpl.
    by rewrite decide_False by (intros [_ ?]; discriminate).
  - rewrite bool_decide_eq_true_2 by done. simpl. by rewrite decide_True.
  - rewrite bool_decide_eq_false_2 by done. simpl. by rewrite decide_False by tauto.
  - rewrite bool_decide_eq_false_2 by done. simpl. by rewrite decide_False by tauto.
Qed.

(** Removing what the two rounds marked keeps exactly the sensors whose
    entity id is still desired under their own type; [list.remove] never
    raises. *)
Lemma remove_orphaned_found (client_sensors : list AnnotatedSensor)
    (options : EntryOptions) :
  remove_orphaned
    (orphan_marks client_sensors (desired options AMBIENT_TEMPERATURE) AMBIENT_TEMPERATURE
     ++ orphan_marks client_sensors (desired options RELATIVE_HUMIDITY) RELATIVE_HUMIDITY)
    client_sensors
  = Ok (filter (still_desired options) client_sensors).
Proof.
  rewrite remove_orphaned_app, !orphan_marks_decide.
  rewrite <- (filter_all client_sensors) at 2.
  rewrite remove_orphaned_marks by done. cbn [result_bind].
  rewrite remove_orphaned_marks.
  - f_equal. apply list_filter_iff. intros s. unfold still_desired.
    destruct (entity_id_in (entity_id s) (desired options (measurement_type s)))
      eqn:Hin.
    + split; [done|]. intros _.
      split; [split; [done|] |]; intros [Hm Hf]; rewrite <- Hm in Hf; congruence.
    + split; [|done]. intros [[_ HA] HH]. exfalso.
      destruct (measurement_type s) eqn:Hm;
        [apply HA | apply HH]; (split; [reflexivity | exact Hin]).
  - intros s [Hm Hin]. split; [done|]. intros [Hm' _]. congruence.
Qed.

Lemma add_new_sensors_eq (new_sensors : list (MeasurementType * string))
    (client_sensors : list AnnotatedSensor) :
  add_new_sensors new_sensors client_sensors
  = client_sensors ++ ((fun p => new_sensor (fst p) (snd p)) <$> new_sensors).
Proof.
  unfold add_new_sensors. revert client_sensors.
  induction new_sensors as [|[m e] l IH]; intros cs.
  - simpl. by rewrite app_nil_r.
  - cbn [fold_left]. rewrite IH, fmap_cons. simpl. by rewrite <- app_assoc.
Qed.

(** The reconciliation in closed form: it always succeeds, keeps the
    sensors that are still desired, in order, and appends one fresh sensor
    per addition. *)
Lemma reconcile_sensors_eq (client_sensors : list AnnotatedSensor)
    (options : EntryOptions) :
  reconcile_sensors client_sensors options
  = Ok (filter (still_desired options) client_sensors
        ++ ((fun p => new_sensor (fst p) (snd p)) <$> additions client_sensors options)).
Proof.
  unfold reconcile_sensors. rewrite find_differences_eq. cbn [result_bind].
  rewrite remove_orphaned_found. cbn [result_bind].
  by rewrite add_new_sensors_eq.
Qed.

Lemma elem_of_unused_entities (client_sensors : list AnnotatedSensor)
    entity_ids m_type (p : MeasurementType * string) :
  p ∈ unused_entities client_sensors entity_ids m_type
  <-> fst p = m_type ∧ snd p ∈ entity_ids
      ∧ entity_used client_sensors m_type (snd p) = false.
Proof.
  unfold unused_entities. rewrite list_elem_of_fmap. split.
  - intros (e & -> & He). apply list_elem_of_filter in He. simpl. tauto.
  - destruct p as [m e]. simpl. intros (-> & Hin & Hu).
    exists e. split; [done|]. apply list_elem_of_filter. done.
Qed.

Lemma elem_of_additions (client_sensors : list AnnotatedSensor) options
    (p : MeasurementType * string) :
  p ∈ additions client_sensors options
  <-> snd p ∈ desired options (fst p)
      ∧ entity_used client_sensors (fst p) (snd p) = false.
Proof.
  unfold additions. rewrite elem_of_app, !elem_of_unused_entities.
  destruct p as [[] e]; simpl; intuition congruence.
Qed.

Lemma entity_id_in_Some (e_id : string) (entity_ids : list string) :
  entity_id_in (Some e_id) entity_ids = true <-> e_id ∈ entity_ids.
Proof. simpl. apply bool_decide_eq_true. Qed.

Lemma filter_Forall_id (P : AnnotatedSensor -> Prop) `{!forall s, Decision (P s)}
    (client_sensors : list AnnotatedSensor) :
  Forall P client_sensors -> filter P client_sensors = client_sensors.
Proof.
  induction 1 as [|y l Hy Hl IH]; [done|].
  rewrite filter_cons_True by done. by rewrite IH.
Qed.

Section Reconciled.
Variable E : list AnnotatedSensor.
Variable D : EntryOptions.

(** The sensor list the reconciliation of [E] with [D] produces. *)
Let E' : list AnnotatedSensor :=
  filter (still_desired D) E
  ++ ((fun p => new_sensor (fst p) (snd p)) <$> additions E D).

Lemma reconciled_elem (s : AnnotatedSensor) :
  s ∈ E' <-> (s ∈ E ∧ still_desired D s)
             ∨ exists p, p ∈ additions E D ∧ s = new_sensor (fst p) (snd p).
Proof.
  unfold E'. rewrite elem_of_app, list_elem_of_filter, list_elem_of_fmap.
  split; (intros [H|H]; [left | right]); try tauto.
  - destruct H as (p & -> & Hp). eauto.
  - destruct H as (p & Hp & ->). eauto.
Qed.

Lemma reconciled_still_desired (s : AnnotatedSensor) :
  s ∈ E' -> still_desired D s.
Proof.
  rewrite reconciled_elem. intros [[_ H] | (p & Hp & ->)]; [done|].
  apply elem_of_additions in Hp as [Hin _].
  unfold still_desired. simpl. by apply bool_decide_eq_true.
Qed.

Lemma reconciled_uses_desired m_type e_id :
  e_id ∈ desired D m_type -> entity_used E' m_type e_id = true.
Proof.
  intros Hin. apply entity_used_true.
  destruct (entity_used E m_type e_id) eqn:Hused.
  - apply entity_used_true in Hused as (s & Hs & Hm & He).
    exists s. split; [|done]. apply reconciled_elem. left. split; [done|].
    unfold still_desired. rewrite Hm, He. by apply entity_id_in_Some.
  - exists (new_sensor m_type e_id). split; [|done].
    apply reconciled_elem. right. exists (m_type, e_id). split; [|done].
    by apply elem_of_additions.
Qed.

Lemma reconciled_no_additions : additions E' D = [].
Proof.
  apply elem_of_nil_inv. intros p Hp.
  apply elem_of_additions in Hp as [Hin Hused].
  rewrite reconciled_uses_desired in Hused; done.
Qed.

Lemma reconciled_no_orphans m_type :
  Forall (fun o => o = None) (orphan_marks E' (desired D m_type) m_type).
Proof.
  unfold orphan_marks. apply Forall_fmap, Forall_forall. intros s Hs. simpl.
  apply reconciled_still_desired in Hs. unfold still_desired in Hs.
  destruct (bool_decide (measurement_type s = m_type)) eqn:Hm; [|done].
  apply bool_decide_eq_true in Hm. rewrite <- Hm, Hs. done.
Qed.

Lemma reconciled_fixpoint : reconcile_sensors E' D = Ok E'.
Proof.
  rewrite reconcile_sensors_eq, reconciled_no_additions. simpl.
  rewrite app_nil_r. f_equal. apply filter_Forall_id, Forall_forall.
  apply reconciled_still_desired.
Qed.
End Reconciled.

(** C1. Reconciliation is idempotent: for every existing sensor list [E]
    and every options mapping [D], the reconciliation of [create] succeeds
    with some list [E'], and finding the differences between [E'] and the
    same [D] yields no addition and no removal (every entry of
    [orphaned_sensors] is [None]); reconciling again leaves [E'] as it is. *)
Theorem reconcile_idempotent (E : list AnnotatedSensor) (D : EntryOptions) :
  exists E', reconcile_sensors E D = Ok E'
    /\ (exists orphaned_sensors,
          find_differences E' D = Ok (orphaned_sensors, [])
          /\ Forall (fun o => o = None) orphaned_sensors)
    /\ reconcile_sensors E' D = Ok E'.
Proof.
  eexists. split; [apply reconcile_sensors_eq|]. split.
  - eexists. split.
    + rewrite find_differences_eq, reconciled_no_additions. reflexivity.
    + apply Forall_app. split; apply reconciled_no_orphans.
  - apply reconciled_fixpoint.
Qed.

Lemma additions_unused (E : list AnnotatedSensor) (D : EntryOptions) m_type e_id :
  (m_type, e_id) ∈ additions E D ->
  e_id ∈ desired D m_type /\ forall s, s ∈ E -> ¬ supplies m_type e_id s.
Proof.
  intros Hp. apply elem_of_additions in Hp as [Hin Hused]. simpl in *.
  split; [done|]. intros s Hs Hsup.
  assert (entity_used E m_type e_id = true) as Ht
    by (apply entity_used_true; eauto).
  congruence.
Qed.

Lemma orphan_marks_Some (E : list AnnotatedSensor) entity_ids m_type s :
  Some s ∈ orphan_marks E entity_ids m_type ->
  s ∈ E /\ measurement_type s = m_type
  /\ entity_id_in (entity_id s) entity_ids = false.
Proof.
  unfold orphan_marks. rewrite list_elem_of_fmap. intros (s' & Heq & Hs').
  destruct (bool_decide (measurement_type s' = m_type)) eqn:Hm; [|done].
  destruct (entity_id_in (entity_id s') entity_ids) eqn:Hin; [done|].
  simpl in Heq. injection Heq as ->. apply bool_decide_eq_true in Hm. done.
Qed.

Lemma NoDup_fmap_filter {A B} (f : A -> B) (P : A -> Prop)
    `{!forall x, Decision (P x)} (l : list A) :
  NoDup (f <$> l) -> NoDup (f <$> filter P l).
Proof.
  induction l as [|x l IH]; [done|].
  rewrite fmap_cons, NoDup_cons. intros [Hx Hl].
  rewrite filter_cons. destruct (decide (P x)); [|auto].
  rewrite fmap_cons, NoDup_cons. split; [|auto].
  intros Hin. apply Hx. apply list_elem_of_fmap in Hin as (y & -> & Hy).
  apply list_elem_of_filter in Hy as [_ Hy]. by apply list_elem_of_fmap_2.
Qed.

Lemma unused_entities_NoDup (E : list AnnotatedSensor) entity_ids m_type :
  NoDup entity_ids -> NoDup (unused_entities E entity_ids m_type).
Proof.
  intros Hnd. unfold unused_entities. apply NoDup_fmap_2_strong.
  - intros x y _ _ [= ->]. done.
  - by apply NoDup_filter.
Qed.

Lemma additions_NoDup (E : list AnnotatedSensor) (D : EntryOptions) :
  (forall m_type, NoDup (desired D m_type)) -> NoDup (additions E D).
Proof.
  intros Hnd. unfold additions. apply NoDup_app. split; [|split].
  - apply unused_entities_NoDup, Hnd.
  - intros p Hp Hq. apply elem_of_unused_entities in Hp as [Hp _].
    apply elem_of_unused_entities in Hq as [Hq _]. congruence.
  - apply unused_entities_NoDup, Hnd.
Qed.

(** With duplicate-free desired lists the reconciled list has unique pairs. *)
Lemma reconciled_unique_pairs (E : list AnnotatedSensor) (D : EntryOptions) :
  unique_pairs E -> (forall m_type, NoDup (desired D m_type)) ->
  unique_pairs
    (filter (still_desired D) E
     ++ ((fun p => new_sensor (fst p) (snd p)) <$> additions E D)).
Proof.
  unfold unique_pairs. intros HE HD. rewrite fmap_app. apply NoDup_app.
  split; [|split].
  - by apply NoDup_fmap_filter.
  - intros key Hk Hk'.
    apply list_elem_of_fmap in Hk as (s & -> & Hs).
    apply list_elem_of_filter in Hs as [_ Hs].
    apply list_elem_of_fmap in Hk' as (s' & Hkey & Hs').
    apply list_elem_of_fmap in Hs' as ([m e] & -> & Hp).
    apply additions_unused in Hp as [_ Hp].
    apply (Hp s Hs). unfold sensor_key in Hkey. simpl in *.
    injection Hkey as Hm He. split; done.
  - rewrite <- list_fmap_compose. apply NoDup_fmap_2_strong.
    + intros [m e] [m' e'] _ _ [= -> ->]. done.
    + by apply additions_NoDup.
Qed.

(** C2, as stated, fails: starting from the empty sensor list, options that
    name [sensor.a] twice under the temperature type make the
    reconciliation append two sensors with the same pair. *)
Lemma reconcile_repeated_entity_counterexample :
  unique_pairs []
  /\ exists E', reconcile_sensors [] (sample_options ["sensor.a"; "sensor.a"] []) = Ok E'
       /\ ¬ unique_pairs E'.
Proof.
  split; [constructor|]. eexists. split; [reflexivity|].
  unfold unique_pairs. simpl. intros H. apply NoDup_cons in H as [H _].
  apply H. left.
Qed.

(** C2, amended. For every sensor list [E] with at most one sensor per
    (measurement type, entity id) pair and every options mapping [D] whose
    entity id lists hold no entity id twice, the reconciliation adds no pair
    that a sensor of [E] already supplies, marks for removal only sensors of
    [E] whose entity id is no longer desired under their type, keeps every
    sensor that is still desired, and yields a list with at most one sensor
    per pair. *)
Theorem reconcile_preserves_unique_pairs (E : list AnnotatedSensor) (D : EntryOptions) :
  unique_pairs E ->
  (forall m_type, NoDup (desired D m_type)) ->
  exists orphaned_sensors new_sensors E',
    find_differences E D = Ok (orphaned_sensors, new_sensors)
    /\ reconcile_sensors E D = Ok E'
    /\ (forall m_type e_id, (m_type, e_id) ∈ new_sensors ->
          forall s, s ∈ E -> ¬ supplies m_type e_id s)
    /\ (forall s, Some s ∈ orphaned_sensors -> s ∈ E /\ ¬ still_desired D s)
    /\ (forall s, s ∈ E -> still_desired D s -> s ∈ E')
    /\ unique_pairs E'.
Proof.
  intros HE HD. do 3 eexists.
  split; [apply find_differences_eq|]. split; [apply reconcile_sensors_eq|].
  split; [|split; [|split]].
  - intros m e Hp. by apply additions_unused in Hp as [_ Hp].
  - intros s Hs. apply elem_of_app in Hs as [Hs|Hs];
      apply orphan_marks_Some in Hs as (Hin & Hm & Hf);
      (split; [done|]); unfold still_desired; rewrite Hm; congruence.
  - intros s Hs Hd. apply elem_of_app. left. by apply list_elem_of_filter.
  - by apply reconciled_unique_pairs.
Qed.

Lemma reconcile_preserves_unique_pairs_witness :
  exists orphaned_sensors new_sensors E',
    find_differences [sensor_a; sensor_h] (sample_options ["sensor.a"; "sensor.b"] [])
    = Ok (orphaned_sensors, new_sensors)
    /\ reconcile_sensors [sensor_a; sensor_h] (sample_options ["sensor.a"; "sensor.b"] [])
       = Ok E'
    /\ (forall m_type e_id, (m_type, e_id) ∈ new_sensors ->
          forall s, s ∈ [sensor_a; sensor_h] -> ¬ supplies m_type e_id s)
    /\ (forall s, Some s ∈ orphaned_sensors ->
          s ∈ [sensor_a; sensor_h]
          /\ ¬ still_desired (sample_options ["sensor.a"; "sensor.b"] []) s)
    /\ (forall s, s ∈ [sensor_a; sensor_h] ->
          still_desired (sample_options ["sensor.a"; "sensor.b"] []) s -> s ∈ E')
    /\ unique_pairs E'.
Proof.
  apply (reconcile_preserves_unique_pairs
           [sensor_a; sensor_h] (sample_options ["sensor.a"; "sensor.b"] [])).
  - unfold unique_pairs. apply (bool_decide_unpack _). vm_compute. exact I.
  - intros []; simpl; apply (bool_decide_unpack _); vm_compute; exact I.
Defined.

(** ** Creation and the helper storage *)

Lemma no_home_true_iff (hass : HomeAssistant) :
  no_home hass = true <-> location_unset hass \/ location_is_placeholder hass.
Proof.
  unfold no_home, py_not, location_unset, location_is_placeholder.
  rewrite orb_true_iff, !andb_true_iff, !Qeq_bool_iff. reflexivity.
Qed.

(** C7. For every host whose location is unset or equal to the placeholder
    default coordinate, [create] raises [NoHomeError] whatever [data] and
    [options] are, and the storage is returned as it was received: nothing
    was loaded, saved or removed. *)
Theorem create_no_home (hass : HomeAssistant) (data : option EntryData)
    (options : option EntryOptions) (storage : Storage) :
  location_unset hass \/ location_is_placeholder hass ->
  create hass data options storage = (Raise NoHomeError, storage).
Proof.
  intros H. apply no_home_true_iff in H. unfold create. rewrite H. reflexivity.
Qed.

Lemma create_no_home_witness :
  create (host_at 0 0) (Some sample_data) (Some (sample_options ["sensor.a"] []))
         (storage_with (Some sample_config))
  = (Raise NoHomeError, storage_with (Some sample_config))
  /\ create (host_at DEFAULT_HOME_LATITUDE DEFAULT_HOME_LONGITUDE) None None
            (storage_with None)
     = (Raise NoHomeError, storage_with None).
Proof.
  split.
  - apply (create_no_home (host_at 0 0)). left. split; reflexivity.
  - apply (create_no_home (host_at DEFAULT_HOME_LATITUDE DEFAULT_HOME_LONGITUDE)).
    right. split; reflexivity.
Defined.

(** C8. For every host with a usable location, if the storage holds no
    persisted configuration and [data] or [options] is not supplied (in
    particular when neither is), [create] raises
    [NoExistingConfigurationError]: no client and no fresh configuration
    comes out, and the storage was only read. *)
Theorem create_no_existing_configuration (hass : HomeAssistant)
    (data : option EntryData) (options : option EntryOptions) (storage : Storage) :
  ¬ location_unset hass ->
  ¬ location_is_placeholder hass ->
  document storage = None ->
  data = None \/ options = None ->
  create hass data options storage
  = (Raise NoExistingConfigurationError,
     {| document := None; journal := journal storage ++ [async_load] |}).
Proof.
  intros Hset Hreal Hdoc Hnone.
  assert (no_home hass = false) as Hhome.
  { destruct (no_home hass) eqn:E; [|done]. apply no_home_true_iff in E. tauto. }
  unfold create. rewrite Hhome.
  unfold async_bind, async_except_FileNotFoundError, create_from_storage,
    load_client_config, async_bind, store_async_load.
  rewrite Hdoc. cbn.
  destruct Hnone as [-> | ->]; [|destruct data]; reflexivity.
Qed.

Lemma create_no_existing_configuration_witness :
  create (host_at 48 11) None None (storage_with None)
  = (Raise NoExistingConfigurationError,
     {| document := None; journal := [async_load] |}).
Proof.
  apply (create_no_existing_configuration (host_at 48 11) None None (storage_with None)).
  - intros [H _]. discriminate H.
  - intros [H _]. discriminate H.
  - reflexivity.
  - left. reflexivity.
Defined.

(** C6, as stated, fails: on a stored configuration with one humidity
    sensor, options that drop it, select [sensor.a] and change [k] and
    [max_depth] make [create] return a client with the reconciled
    configuration while the storage still holds the old document and has
    seen a load only. *)
Lemma create_without_save_counterexample :
  exists client storage',
    create (host_at 48 11) (Some sample_data)
           (Some {| update_interval := 60; k_privacy := 5;
                    maximum_trixel_depth := 12;
                    outdoor_temperature_sensors := ["sensor.a"];
                    outdoor_relative_humidity_sensors := [] |})
           (storage_with (Some sample_config))
    = (Ok client, storage')
    /\ sensors (_config client) = [new_sensor AMBIENT_TEMPERATURE "sensor.a"]
    /\ k (_config client) = 5 /\ max_depth (_config client) = 12
    /\ document storage' = Some sample_config
    /\ document storage' <> Some (_config client)
    /\ journal storage' = [async_load].
Proof.
  do 2 eexists. split; [reflexivity|]. cbn.
  repeat split; discriminate.
Qed.

(** C6, amended. [create] never writes to the configuration store: whatever
    the host, [data], [options] and the storage are, the stored document is
    afterwards the one that was there before, and the only storage operation
    of [create] is at most one load.  The reconciled configuration is held
    by the returned client; it reaches the store when [_persist_config] is
    called on that client, which saves exactly the client's configuration. *)
Theorem create_only_loads (hass : HomeAssistant) (data : option EntryData)
    (options : option EntryOptions) (storage : Storage) :
  exists r storage',
    create hass data options storage = (r, storage')
    /\ document storage' = document storage
    /\ (journal storage' = journal storage
        \/ journal storage' = journal storage ++ [async_load])
    /\ forall client, r = Ok client ->
         _persist_config client storage'
         = (Ok tt, {| document := Some (_config client);
                      journal := journal storage' ++ [async_save (_config client)] |}).
Proof.
  unfold create. destruct (no_home hass).
  { do 2 eexists. split; [reflexivity|]. simpl. auto. }
  unfold async_bind, async_except_FileNotFoundError, create_from_storage,
    load_client_config, async_bind, store_async_load, create_fresh, async_lift.
  destruct (document storage) as [cfg|] eqn:Hdoc; cbn.
  - destruct (ms_config cfg) as [registration|]; cbn.
    + destruct options as [o|]; cbn.
      * rewrite reconcile_sensors_eq. cbn.
        do 2 eexists. split; [reflexivity|]. simpl. auto.
      * do 2 eexists. split; [reflexivity|]. simpl. auto.
    + do 2 eexists. split; [reflexivity|]. simpl. split; [done|]. split; [auto|].
      intros client [=].
  - destruct data as [d|], options as [o|]; cbn;
      do 2 eexists; (split; [reflexivity|]); simpl; auto.
Qed.

(** ** Update production *)

Lemma get_updates_loop_app (hass : HomeAssistant) (l1 l2 : list AnnotatedSensor)
    (last_timestamps : gmap (option Z) Z) (updates : gmap (option Z) Update) :
  _get_updates_loop hass (l1 ++ l2) last_timestamps updates
  = match _get_updates_loop hass l1 last_timestamps updates with
    | (Ok updates1, last_timestamps1) =>
        _get_updates_loop hass l2 last_timestamps1 updates1
    | (Raise e, last_timestamps1) => (Raise e, last_timestamps1)
    end.
Proof.
  revert last_timestamps updates.
  induction l1 as [|s l IH]; intros lt up; [reflexivity|].
  simpl. destruct (_get_updates_reading hass s) as [[[ts v]|]|e]; [|apply IH|done].
  destruct (bool_decide _); apply IH.
Qed.

(** Sensors with other ids leave the entries of [sid] alone. *)
Lemma get_updates_loop_frame (hass : HomeAssistant) (sid : option Z) (l : list AnnotatedSensor)
    (last_timestamps : gmap (option Z) Z) (updates : gmap (option Z) Update) :
  id_not_shared sid l ->
  (_get_updates_loop hass l last_timestamps updates).2 !! sid = last_timestamps !! sid
  /\ forall u, (_get_updates_loop hass l last_timestamps updates).1 = Ok u ->
       u !! sid = updates !! sid.
Proof.
  unfold id_not_shared. intros Hall. revert last_timestamps updates.
  induction Hall as [|s l Hs Hl IH]; intros lt up; simpl.
  - split; [done|]. by intros u [= ->].
  - destruct (_get_updates_reading hass s) as [[[ts v]|]|e]; [|apply IH|done].
    destruct (bool_decide _); [|apply IH].
    destruct (IH (<[sensor_id s:=ts]> lt) (<[sensor_id s:=(ts, v)]> up)) as [H1 H2].
    split.
    + rewrite H1. by apply lookup_insert_ne.
    + intros u Hu. rewrite (H2 u Hu). by apply lookup_insert_ne.
Qed.

Section OneSensor.
Variable hass0 : HomeAssistant.
Variables pre post : list AnnotatedSensor.
Variable s : AnnotatedSensor.
Hypothesis others : id_not_shared (sensor_id s) (pre ++ post).
Variable last_timestamps : gmap (option Z) Z.
Variable updates : gmap (option Z) Update.

(** A sensor that is skipped, or whose timestamp is the recorded one,
    changes neither its cache entry nor its batch entry, whatever the other
    sensors do. *)
Lemma get_updates_loop_suppressed :
  _get_updates_reading hass0 s = Ok None
  \/ (exists v, _get_updates_reading hass0 s
                = Ok (Some (default 0 (last_timestamps !! sensor_id s), v))) ->
  (_get_updates_loop hass0 (pre ++ s :: post) last_timestamps updates).2 !! sensor_id s
  = last_timestamps !! sensor_id s
  /\ forall u,
       (_get_updates_loop hass0 (pre ++ s :: post) last_timestamps updates).1 = Ok u ->
       u !! sensor_id s = updates !! sensor_id s.
Proof.
  intros Hread. apply Forall_app in others as [Hpre Hpost].
  rewrite get_updates_loop_app.
  destruct (get_updates_loop_frame hass0 _ pre last_timestamps updates Hpre)
    as [Hc Hu].
  destruct (_get_updates_loop hass0 pre last_timestamps updates) as [[up1|e] lt1];
    simpl in Hc, Hu; [|split; [done | by intros u [=]]].
  specialize (Hu up1 eq_refl).
  assert (_get_updates_loop hass0 (s :: post) lt1 up1
          = _get_updates_loop hass0 post lt1 up1) as ->.
  { simpl. destruct Hread as [-> | [v ->]]; [done|].
    rewrite Hc. by rewrite bool_decide_eq_false_2 by auto. }
  destruct (get_updates_loop_frame hass0 _ post lt1 up1 Hpost) as [Hc' Hu'].
  split; [congruence|]. intros u Hr. rewrite (Hu' u Hr). done.
Qed.

(** A sensor whose timestamp differs from the recorded one gets its batch
    entry, and the timestamp is recorded. *)
Lemma get_updates_loop_emitted (timestamp : Z) (value : option PyValue)
    (u : gmap (option Z) Update) :
  _get_updates_reading hass0 s = Ok (Some (timestamp, value)) ->
  timestamp ≠ default 0 (last_timestamps !! sensor_id s) ->
  (_get_updates_loop hass0 (pre ++ s :: post) last_timestamps updates).1 = Ok u ->
  u !! sensor_id s = Some (timestamp, value)
  /\ (_get_updates_loop hass0 (pre ++ s :: post) last_timestamps updates).2
       !! sensor_id s = Some timestamp.
Proof.
  intros Hread Hne. apply Forall_app in others as [Hpre Hpost].
  rewrite get_updates_loop_app.
  destruct (get_updates_loop_frame hass0 _ pre last_timestamps updates Hpre)
    as [Hc _].
  destruct (_get_updates_loop hass0 pre last_timestamps updates) as [[up1|e] lt1];
    simpl in Hc; [|by intros [=]].
  simpl. rewrite Hread, Hc. rewrite bool_decide_eq_true_2 by done.
  destruct (get_updates_loop_frame hass0 _ post
              (<[sensor_id s:=timestamp]> lt1)
              (<[sensor_id s:=(timestamp, value)]> up1) Hpost) as [Hc' Hu'].
  intros Hr. rewrite (Hu' u Hr), Hc', !lookup_insert_eq. done.
Qed.
End OneSensor.

Lemma get_updates_reading_ext (h1 h2 : HomeAssistant) (s : AnnotatedSensor) :
  states h1 = states h2 -> _get_updates_reading h1 s = _get_updates_reading h2 s.
Proof. intros H. unfold _get_updates_reading, states_get. by rewrite H. Qed.

Lemma get_updates_eq (self : IntegrationPollingClient) :
  _get_updates self
  = ((_get_updates_loop (hass self) (sensors (_config self))
        (_last_timestamps self) ∅).1,
     set_last_timestamps self
       (_get_updates_loop (hass self) (sensors (_config self))
          (_last_timestamps self) ∅).2).
Proof. unfold _get_updates. by destruct (_get_updates_loop _ _ _ _). Qed.

Section OneTick.
Variable self : IntegrationPollingClient.
Variables pre post : list AnnotatedSensor.
Variable s : AnnotatedSensor.
Hypothesis configured : sensors (_config self) = pre ++ s :: post.
Hypothesis others : id_not_shared (sensor_id s) (pre ++ post).

Lemma get_updates_config r self' :
  _get_updates self = (r, self') -> _config self' = _config self.
Proof. rewrite get_updates_eq. by intros [= _ <-]. Qed.

(** One call in which the sensor is skipped or reports the recorded
    timestamp: no entry for it in the batch (if there is a batch), and its
    cache entry stays. *)
Lemma get_updates_suppressed r self' :
  _get_updates_reading (hass self) s = Ok None
  \/ (exists v, _get_updates_reading (hass self) s
                = Ok (Some (default 0 (_last_timestamps self !! sensor_id s), v))) ->
  _get_updates self = (r, self') ->
  emitted (sensor_id s) r = false
  /\ _last_timestamps self' !! sensor_id s = _last_timestamps self !! sensor_id s.
Proof.
  intros Hread. rewrite get_updates_eq, configured. intros [= <- <-].
  destruct (get_updates_loop_suppressed (hass self) pre post s others
              (_last_timestamps self) ∅ Hread) as [Hc Hu].
  split; [|exact Hc].
  destruct (_get_updates_loop _ _ _ _) as [[u|e] lt]; [|done]. simpl in *.
  rewrite (Hu u eq_refl), lookup_empty.
  apply bool_decide_eq_false_2. by intros [? ?].
Qed.

(** One call that returns a batch and in which the sensor reports another
    timestamp than the recorded one: the batch holds its reading, and the
    timestamp is recorded. *)
Lemma get_updates_emitted timestamp value u self' :
  _get_updates_reading (hass self) s = Ok (Some (timestamp, value)) ->
  timestamp ≠ default 0 (_last_timestamps self !! sensor_id s) ->
  _get_updates self = (Ok u, self') ->
  u !! sensor_id s = Some (timestamp, value)
  /\ _last_timestamps self' !! sensor_id s = Some timestamp.
Proof.
  intros Hread Hne. rewrite get_updates_eq, configured. intros [= Hr <-].
  exact (get_updates_loop_emitted (hass self) pre post s others
           (_last_timestamps self) ∅ timestamp value u Hread Hne Hr).
Qed.

(** Either way, after a call that returned a batch the recorded timestamp
    of the sensor is the one it reported, and it was emitted exactly when
    that differs from the one recorded before. *)
Lemma get_updates_dedup timestamp value u self' :
  _get_updates_reading (hass self) s = Ok (Some (timestamp, value)) ->
  _get_updates self = (Ok u, self') ->
  emitted (sensor_id s) (Ok u)
  = bool_decide (timestamp ≠ default 0 (_last_timestamps self !! sensor_id s))
  /\ default 0 (_last_timestamps self' !! sensor_id s) = timestamp.
Proof.
  intros Hread Hrun.
  destruct (decide (timestamp = default 0 (_last_timestamps self !! sensor_id s)))
    as [Heq|Hne].
  - destruct (get_updates_suppressed (Ok u) self') as [He Hc]; [|done|].
    { right. exists value. by rewrite <- Heq. }
    rewrite He, Hc. split; [|done]. symmetry. apply bool_decide_eq_false_2. auto.
  - destruct (get_updates_emitted timestamp value u self' Hread Hne Hrun) as [Hu Hc].
    rewrite Hc. split; [|done]. simpl. rewrite Hu.
    rewrite !bool_decide_eq_true_2; eauto.
Qed.
End OneTick.

Lemma polling_ticks_cons (self : IntegrationPollingClient)
    (sts : gmap string State) (later : list (gmap string State)) :
  polling_ticks self (sts :: later)
  = ((_get_updates (set_states self sts)).1
       :: (polling_ticks (_get_updates (set_states self sts)).2 later).1,
     (polling_ticks (_get_updates (set_states self sts)).2 later).2).
Proof.
  simpl. destruct (_get_updates (set_states self sts)) as [r self1]. simpl.
  by destruct (polling_ticks self1 later).
Qed.

Lemma polling_ticks_dedup (pre post : list AnnotatedSensor) (s : AnnotatedSensor)
    (snapshots : list (gmap string State)) (readings : list Update) :
  id_not_shared (sensor_id s) (pre ++ post) ->
  Forall2 (fun sts reading =>
             forall h, states h = sts -> _get_updates_reading h s = Ok (Some reading))
          snapshots readings ->
  forall self : IntegrationPollingClient,
    sensors (_config self) = pre ++ s :: post ->
    Forall (fun r => exists u, r = Ok u) (polling_ticks self snapshots).1 ->
    emitted (sensor_id s) <$> (polling_ticks self snapshots).1
    = emit_decisions (default 0 (_last_timestamps self !! sensor_id s)) (readings.*1)
    /\ default 0 (_last_timestamps (polling_ticks self snapshots).2 !! sensor_id s)
       = default (default 0 (_last_timestamps self !! sensor_id s))
                 (last (readings.*1)).
Proof.
  intros Hothers Hread.
  induction Hread as [|sts [ts v] later readings Hfirst Hlater IH];
    intros self Hconf Hok; [done|].
  rewrite polling_ticks_cons in *. simpl in Hok.
  apply Forall_cons in Hok as [[u Hu] Hok].
  destruct (_get_updates (set_states self sts)) as [r self1] eqn:Hrun.
  cbn [fst snd] in Hu, Hok |- *. subst r.
  assert (sensors (_config (set_states self sts)) = pre ++ s :: post) as Hconf'
    by done.
  destruct (get_updates_dedup (set_states self sts) pre post s Hconf' Hothers
              ts v u self1 (Hfirst (hass (set_states self sts)) eq_refl) Hrun)
    as [Hemit Hrec].
  assert (sensors (_config self1) = pre ++ s :: post) as Hconf1.
  { by rewrite (get_updates_config _ _ _ Hrun). }
  destruct (IH self1 Hconf1 Hok) as [IH1 IH2].
  rewrite !fmap_cons. cbn [emit_decisions fst]. rewrite IH1, IH2, Hrec. split.
  - f_equal. exact Hemit.
  - rewrite last_cons. by destruct (last readings.*1).
Qed.

(** C3. For a sensor whose id no other configured sensor carries and whose
    readings pass the checks at every tick, in ticks that all return a
    batch: the sensor's reading is emitted exactly when its timestamp
    differs from the last recorded timestamp for its id (0 when the id was
    never seen), and the timestamp it reported is the recorded one
    afterwards.  Feeding the timestamps 100, 100, 101, 100 to a fresh cache
    yields the decisions true, false, true, true. *)
Theorem dedup_cache_emit_decisions (self : IntegrationPollingClient)
    (pre post : list AnnotatedSensor) (s : AnnotatedSensor)
    (snapshots : list (gmap string State)) (readings : list Update) :
  sensors (_config self) = pre ++ s :: post ->
  id_not_shared (sensor_id s) (pre ++ post) ->
  Forall2 (fun sts reading =>
             _get_updates_reading (hass (set_states self sts)) s = Ok (Some reading))
          snapshots readings ->
  Forall (fun r => exists u, r = Ok u) (polling_ticks self snapshots).1 ->
  emitted (sensor_id s) <$> (polling_ticks self snapshots).1
  = emit_decisions (default 0 (_last_timestamps self !! sensor_id s)) (readings.*1)
  /\ default 0 (_last_timestamps (polling_ticks self snapshots).2 !! sensor_id s)
     = default (default 0 (_last_timestamps self !! sensor_id s))
               (last (readings.*1)).
Proof.
  intros Hconf Hothers Hread Hok.
  apply (polling_ticks_dedup pre post s snapshots readings); try done.
  eapply Forall2_impl; [exact Hread|]. simpl. intros sts reading H h Hh.
  rewrite <- H. apply get_updates_reading_ext. by rewrite Hh.
Qed.

Lemma dedup_cache_emit_decisions_witness :
  emitted (Some 2) <$> (polling_ticks humidity_client humidity_snapshots).1
  = [true; false; true; true]
  /\ default 0 (_last_timestamps (polling_ticks humidity_client humidity_snapshots).2
                !! Some 2) = 100.
Proof.
  assert (Forall2
            (fun sts reading =>
               _get_updates_reading (hass (set_states humidity_client sts)) sensor_h
               = Ok (Some reading))
            humidity_snapshots
            ((fun t => (t, Some (PyFloat 50))) <$> [100; 100; 101; 100])) as Hread.
  { repeat constructor. }
  assert (Forall (fun r => exists u, r = Ok u)
            (polling_ticks humidity_client humidity_snapshots).1) as Hok.
  { vm_compute. repeat (constructor; [eexists; reflexivity|]). constructor. }
  exact (dedup_cache_emit_decisions humidity_client [] [] sensor_h humidity_snapshots
           _ eq_refl (List.Forall_nil _) Hread Hok).
Defined.

Lemma get_updates_loop_Ok_iff (hass : HomeAssistant) (l : list AnnotatedSensor)
    (last_timestamps : gmap (option Z) Z) (updates : gmap (option Z) Update) :
  (exists u, (_get_updates_loop hass l last_timestamps updates).1 = Ok u)
  <-> Forall (fun s => exists o, _get_updates_reading hass s = Ok o) l.
Proof.
  revert last_timestamps updates.
  induction l as [|s l IH]; intros lt up; simpl.
  - split; [constructor | eauto].
  - rewrite Forall_cons.
    destruct (_get_updates_reading hass s) as [[[ts v]|]|e] eqn:Hread.
    + destruct (bool_decide _); rewrite IH; split; [eauto | tauto | eauto | tauto].
    + rewrite IH. split; [eauto | tauto].
    + simpl. split; [intros [u [=]] | intros [[o [=]] _]].
Qed.

(** *** What one sensor contributes *)

Lemma mapping_temperature_iff (m_type : MeasurementType) :
  MEASUREMENT_TYPE_DEVICE_CLASS_MAPPING m_type = SensorDeviceClass_TEMPERATURE
  <-> m_type = AMBIENT_TEMPERATURE.
Proof. destruct m_type; split; intros H; done. Qed.

Lemma reading_no_state (hass : HomeAssistant) (s : AnnotatedSensor) :
  states_get hass (entity_id s) = None -> _get_updates_reading hass s = Ok None.
Proof. intros H. unfold _get_updates_reading. by rewrite H. Qed.

Lemma reading_missing_device_class (hass : HomeAssistant) (s : AnnotatedSensor)
    (st : State) :
  states_get hass (entity_id s) = Some st ->
  attributes st !! ATTR_DEVICE_CLASS = None ->
  _get_updates_reading hass s = Raise KeyError.
Proof.
  intros H Hdc. unfold _get_updates_reading, attributes_getitem.
  by rewrite H, Hdc.
Qed.

Lemma reading_rejected (hass : HomeAssistant) (s : AnnotatedSensor) (st : State) :
  states_get hass (entity_id s) = Some st ->
  checks_reject s st ->
  _get_updates_reading hass s = Ok None.
Proof.
  intros H Hrej. unfold _get_updates_reading, attributes_getitem. rewrite H.
  destruct Hrej as [(dc & -> & Hdc) | (-> & Hm & u & Hu & Hnot)]; cbn [result_bind].
  - by rewrite bool_decide_eq_false_2.
  - rewrite bool_decide_eq_true_2 by done. cbn [negb].
    rewrite (bool_decide_eq_true_2 _ Hm), Hu. cbn [result_bind].
    by rewrite bool_decide_eq_false_2.
Qed.

(** A state that passes the checks contributes its timestamp and its value:
    [None] for a sentinel, the value converted to degrees Celsius on a
    temperature sensor, the value as it is otherwise. *)
Lemma reading_accepted (hass : HomeAssistant) (s : AnnotatedSensor) (st : State) :
  states_get hass (entity_id s) = Some st ->
  checks_pass s st ->
  _get_updates_reading hass s
  = if is_sentinel (state st) then Ok (Some (measurement_timestamp st, None))
    else match measurement_type s with
         | AMBIENT_TEMPERATURE =>
             try! unit := attributes_getitem st ATTR_UNIT_OF_MEASUREMENT in
             try! converted :=
               TemperatureConverter_convert (state st) unit UnitOfTemperature_CELSIUS in
             Ok (Some (measurement_timestamp st, Some converted))
         | RELATIVE_HUMIDITY => Ok (Some (measurement_timestamp st, Some (state st)))
         end.
Proof.
  intros H [Hdc Hunit]. unfold _get_updates_reading. rewrite H.
  unfold attributes_getitem at 1 3. rewrite Hdc. cbn [result_bind].
  rewrite bool_decide_eq_true_2 by done. cbn [negb].
  destruct (measurement_type s) eqn:Hm.
  - destruct (Hunit eq_refl) as (u & Hu & Hin).
    rewrite (bool_decide_eq_true_2 (AMBIENT_TEMPERATURE = AMBIENT_TEMPERATURE)) by done.
    unfold attributes_getitem. rewrite Hu. cbn [result_bind].
    rewrite (bool_decide_eq_true_2 _ Hin). cbn [negb].
    cbn [MEASUREMENT_TYPE_DEVICE_CLASS_MAPPING].
    rewrite bool_decide_eq_true_2 by done.
    destruct (is_sentinel (state st)); cbn [result_bind]; [done|].
    by destruct (TemperatureConverter_convert _ _ _).
  - rewrite (bool_decide_eq_false_2 (RELATIVE_HUMIDITY = AMBIENT_TEMPERATURE)) by done.
    cbn [result_bind MEASUREMENT_TYPE_DEVICE_CLASS_MAPPING].
    rewrite bool_decide_eq_false_2 by done.
    by destruct (is_sentinel (state st)).
Qed.

Lemma is_sentinel_true (v : PyValue) :
  v = PyStr "unavailable" \/ v = PyStr "unknown" -> is_sentinel v = true.
Proof. by intros [-> | ->]. Qed.

(** C5. A state whose value is the sentinel "unavailable" or "unknown" is
    not turned down for that: the device-class and unit checks decide.  If
    they pass, the sensor contributes its timestamp with a null value; when
    no other configured sensor makes the loop raise, [_get_updates] returns
    a batch, and the batch holds the entry (timestamp, null) for the sensor
    unless the timestamp is the recorded one.  If the checks reject the
    state, the sensor is skipped as with any other value. *)
Theorem sentinel_state_reported_as_null (self : IntegrationPollingClient)
    (pre post : list AnnotatedSensor) (s : AnnotatedSensor) (st : State) :
  sensors (_config self) = pre ++ s :: post ->
  id_not_shared (sensor_id s) (pre ++ post) ->
  states_get (hass self) (entity_id s) = Some st ->
  state st = PyStr "unavailable" \/ state st = PyStr "unknown" ->
  (checks_pass s st ->
     _get_updates_reading (hass self) s = Ok (Some (measurement_timestamp st, None))
     /\ (Forall (fun other => exists o, _get_updates_reading (hass self) other = Ok o)
                (pre ++ post) ->
         measurement_timestamp st ≠ default 0 (_last_timestamps self !! sensor_id s) ->
         exists updates self',
           _get_updates self = (Ok updates, self')
           /\ updates !! sensor_id s = Some (measurement_timestamp st, None)))
  /\ (checks_reject s st -> _get_updates_reading (hass self) s = Ok None).
Proof.
  intros Hconf Hothers Hst Hsentinel. split.
  - intros Hpass.
    assert (_get_updates_reading (hass self) s
            = Ok (Some (measurement_timestamp st, None))) as Hread.
    { rewrite (reading_accepted _ _ _ Hst Hpass).
      by rewrite (is_sentinel_true _ Hsentinel). }
    split; [done|]. intros Hok Hne.
    assert (exists updates,
              (_get_updates_loop (hass self) (sensors (_config self))
                 (_last_timestamps self) ∅).1 = Ok updates) as [updates Hloop].
    { apply get_updates_loop_Ok_iff. rewrite Hconf.
      apply Forall_app in Hok as [Hpre Hpost].
      apply Forall_app. split; [done|]. constructor; [eauto | done]. }
    exists updates. eexists. split.
    + rewrite get_updates_eq, Hloop. reflexivity.
    + eapply (get_updates_emitted self pre post s Hconf Hothers); [done | done |].
      rewrite get_updates_eq, Hloop. reflexivity.
  - by apply reading_rejected.
Qed.

Lemma sentinel_state_reported_as_null_witness :
  _get_updates_reading
    (hass (two_sensor_client (states_with_temperature (PyStr "unavailable"))))
    sensor_a
  = Ok (Some (101, None))
  /\ exists updates self',
       _get_updates (two_sensor_client (states_with_temperature (PyStr "unavailable")))
       = (Ok updates, self')
       /\ updates !! Some 1 = Some (101, None).
Proof.
  assert (checks_pass sensor_a
            (temperature_state (PyStr "unavailable") UnitOfTemperature_FAHRENHEIT 101))
    as Hpass.
  { split; [reflexivity|]. intros _. exists UnitOfTemperature_FAHRENHEIT.
    split; [reflexivity|]. apply (bool_decide_unpack _). vm_compute. exact I. }
  destruct (sentinel_state_reported_as_null
              (two_sensor_client (states_with_temperature (PyStr "unavailable")))
              [sensor_h] [] sensor_a
              (temperature_state (PyStr "unavailable") UnitOfTemperature_FAHRENHEIT 101))
    as [Hnull _].
  - reflexivity.
  - repeat constructor. discriminate.
  - reflexivity.
  - left. reflexivity.
  - destruct (Hnull Hpass) as [Hread Hbatch]. split; [exact Hread|].
    apply Hbatch.
    + repeat constructor. eexists. reflexivity.
    + vm_compute. discriminate.
Defined.

(** C9, evaluated where it fails.  [sensor.a] is a temperature sensor in
    degrees Fahrenheit whose state is the text "32", as the state machine
    holds it.  [_get_updates] hands the text to the converter as it is;
    the conversion raises [TypeError], which ends the loop: no batch is
    returned, nothing is converted to 0 degrees Celsius, and the timestamp
    of [sensor.h], read before, is already recorded. *)
Theorem fahrenheit_text_aborts_batch :
  _get_updates_reading
    (hass (two_sensor_client (states_with_temperature (PyStr "32")))) sensor_a
  = Raise TypeError
  /\ (_get_updates (two_sensor_client (states_with_temperature (PyStr "32")))).1
     = Raise TypeError
  /\ _last_timestamps
       (_get_updates (two_sensor_client (states_with_temperature (PyStr "32")))).2
     !! Some 2 = Some 100.
Proof. repeat split; vm_compute; reflexivity. Qed.

Lemma polling_ticks_zero (pre post : list AnnotatedSensor) (s : AnnotatedSensor)
    (snapshots : list (gmap string State)) :
  id_not_shared (sensor_id s) (pre ++ post) ->
  Forall (fun sts =>
            forall h, states h = sts ->
              exists v, _get_updates_reading h s = Ok (Some (0, v)))
         snapshots ->
  forall self : IntegrationPollingClient,
    sensors (_config self) = pre ++ s :: post ->
    _last_timestamps self !! sensor_id s = None ->
    Forall (fun r => emitted (sensor_id s) r = false) (polling_ticks self snapshots).1
    /\ _last_timestamps (polling_ticks self snapshots).2 !! sensor_id s = None
    /\ _config (polling_ticks self snapshots).2 = _config self.
Proof.
  intros Hothers Hzero.
  induction Hzero as [|sts later Hfirst Hlater IH]; intros self Hconf Hnone.
  - simpl. split; [constructor | done].
  - rewrite polling_ticks_cons.
    destruct (_get_updates (set_states self sts)) as [r self1] eqn:Hrun.
    cbn [fst snd].
    assert (sensors (_config (set_states self sts)) = pre ++ s :: post) as Hconf'
      by done.
    destruct (Hfirst (hass (set_states self sts)) eq_refl) as [v Hv].
    destruct (get_updates_suppressed (set_states self sts) pre post s Hconf' Hothers
                r self1) as [Hsup Hc]; [|exact Hrun|].
    { right. exists v. cbn [set_states _last_timestamps]. by rewrite Hnone. }
    pose proof (get_updates_config _ _ _ Hrun) as Hcfg. cbn in Hcfg.
    destruct (IH self1) as (IH1 & IH2 & IH3).
    + by rewrite Hcfg.
    + rewrite Hc. exact Hnone.
    + split; [by constructor|]. split; [done|]. by rewrite IH3.
Qed.

(** C10. A sensor whose id the cache has never seen and whose readings all
    carry the timestamp 0 is never emitted: however many calls of
    [_get_updates] are made, no batch holds an entry for it and its id stays
    absent from the cache; the first later call that returns a batch and in
    which the sensor carries another timestamp does emit it. *)
Theorem first_reading_at_zero_suppressed (self : IntegrationPollingClient)
    (pre post : list AnnotatedSensor) (s : AnnotatedSensor)
    (snapshots : list (gmap string State)) :
  sensors (_config self) = pre ++ s :: post ->
  id_not_shared (sensor_id s) (pre ++ post) ->
  _last_timestamps self !! sensor_id s = None ->
  Forall (fun sts =>
            exists v, _get_updates_reading (hass (set_states self sts)) s
                      = Ok (Some (0, v)))
         snapshots ->
  Forall (fun r => emitted (sensor_id s) r = false) (polling_ticks self snapshots).1
  /\ _last_timestamps (polling_ticks self snapshots).2 !! sensor_id s = None
  /\ forall sts timestamp value updates self',
       timestamp ≠ 0 ->
       _get_updates_reading (hass (set_states self sts)) s
       = Ok (Some (timestamp, value)) ->
       _get_updates (set_states (polling_ticks self snapshots).2 sts)
       = (Ok updates, self') ->
       updates !! sensor_id s = Some (timestamp, value).
Proof.
  intros Hconf Hothers Hnone Hzero.
  destruct (polling_ticks_zero pre post s snapshots Hothers) with (self := self)
    as (H1 & H2 & H3); try done.
  { eapply Forall_impl; [exact Hzero|]. simpl. intros sts [v Hv] h Hh.
    exists v. rewrite <- Hv. apply get_updates_reading_ext. by rewrite Hh. }
  split; [done|]. split; [done|].
  intros sts timestamp value updates self' Hne Hread Hrun.
  set (final := (polling_ticks self snapshots).2) in *.
  assert (sensors (_config (set_states final sts)) = pre ++ s :: post) as Hconf'.
  { cbn [set_states _config]. by rewrite H3. }
  destruct (get_updates_emitted (set_states final sts) pre post s Hconf' Hothers
              timestamp value updates self') as [Hu _]; try done.
  cbn [set_states _last_timestamps]. by rewrite H2.
Qed.

Lemma first_reading_at_zero_suppressed_witness :
  Forall (fun r => emitted (Some 2) r = false)
         (polling_ticks humidity_client epoch_snapshots).1
  /\ _last_timestamps (polling_ticks humidity_client epoch_snapshots).2 !! Some 2 = None.
Proof.
  destruct (first_reading_at_zero_suppressed humidity_client [] [] sensor_h
              epoch_snapshots) as (Hnever & Hcache & _).
  - reflexivity.
  - constructor.
  - reflexivity.
  - repeat constructor; exists (Some (PyFloat 50)); reflexivity.
  - split; [exact Hnever | exact Hcache].
Defined.

(** C4, evaluated where it fails.  With the humidity sensor and the
    temperature sensor configured, a state of [sensor.a] that carries no
    [device_class] attribute makes [_get_updates] raise [KeyError]: no batch
    is returned, although [sensor.h] had a fresh reading, whose timestamp
    has already been recorded in the cache.  Were the state of [sensor.a]
    missing altogether, the batch would hold the reading of [sensor.h]. *)
Theorem missing_device_class_aborts_batch :
  (_get_updates (two_sensor_client states_with_bare_temperature)).1 = Raise KeyError
  /\ _last_timestamps (_get_updates (two_sensor_client states_with_bare_temperature)).2
     !! Some 2 = Some 100
  /\ (_get_updates (two_sensor_client {["sensor.h" := humidity_state 50 100]})).1
     = Ok {[Some 2 := (100, Some (PyFloat 50))]}.
Proof. repeat split; vm_compute; reflexivity. Qed.

(** * Further properties of the client *)

(** ** Creation *)

Lemma usable_home (hass : HomeAssistant) :
  ¬ location_unset hass -> ¬ location_is_placeholder hass -> no_home hass = false.
Proof.
  intros Hset Hreal. destruct (no_home hass) eqn:E; [|done].
  apply no_home_true_iff in E. tauto.
Qed.

Lemma fresh_sensors_eq (options : EntryOptions) :
  fresh_sensors options
  = Ok ((new_sensor AMBIENT_TEMPERATURE <$> outdoor_temperature_sensors options)
        ++ (new_sensor RELATIVE_HUMIDITY <$> outdoor_relative_humidity_sensors options)).
Proof. reflexivity. Qed.

(** The outcome of [create], case by case. *)
Lemma create_outcome (hass : HomeAssistant) (data : option EntryData)
    (options : option EntryOptions) (storage : Storage) :
  create hass data options storage
  = if no_home hass then (Raise NoHomeError, storage)
    else
      let loaded :=
        {| document := document storage; journal := journal storage ++ [async_load] |} in
      match document storage with
      | Some stored =>
          match ms_config stored with
          | None => (Raise TypeError, loaded)
          | Some _ =>
              (Ok {| hass := hass;
                     _config :=
                       match options with
                       | None => set_location stored (hass_coordinate hass)
                       | Some o =>
                           set_sensors
                             (set_k_max_depth
                                (set_location stored (hass_coordinate hass))
                                (k_privacy o) (maximum_trixel_depth o))
                             (filter (still_desired o) (sensors stored)
                              ++ ((fun p => new_sensor (fst p) (snd p))
                                  <$> additions (sensors stored) o))
                       end;
                     _last_timestamps := ∅ |},
               loaded)
          end
      | None =>
          match data, options with
          | Some d, Some o =>
              (Ok {| hass := hass;
                     _config :=
                       {| location := hass_coordinate hass;
                          tls_host := trixel_lookup_service_host d;
                          k := k_privacy o;
                          max_depth := maximum_trixel_depth o;
                          ms_config := None;
                          sensors :=
                            (new_sensor AMBIENT_TEMPERATURE
                               <$> outdoor_temperature_sensors o)
                            ++ (new_sensor RELATIVE_HUMIDITY
                                  <$> outdoor_relative_humidity_sensors o) |};
                     _last_timestamps := ∅ |},
               loaded)
          | _, _ => (Raise NoExistingConfigurationError, loaded)
          end
      end.
Proof.
  unfold create. destruct (no_home hass); [done|].
  unfold async_bind, async_except_FileNotFoundError, create_from_storage,
    load_client_config, async_bind, store_async_load, create_fresh, async_lift.
  destruct (document storage) as [stored|]; cbn.
  - destruct (ms_config stored) as [registration|]; cbn; [|done].
    destruct options as [o|]; cbn; [|done].
    rewrite reconcile_sensors_eq. done.
  - by destruct data as [d|], options as [o|].
Qed.

(** [NoHomeError] is raised for the two guarded locations and for no other:
    a host with a single zero coordinate, or with one coordinate of the
    placeholder only, gets past the guard. *)
Theorem create_NoHomeError_iff (hass : HomeAssistant) (data : option EntryData)
    (options : option EntryOptions) (storage : Storage) :
  (exists storage', create hass data options storage = (Raise NoHomeError, storage'))
  <-> location_unset hass \/ location_is_placeholder hass.
Proof.
  split.
  - intros [storage' Hrun]. apply no_home_true_iff.
    destruct (no_home hass) eqn:Hhome; [done|]. exfalso.
    rewrite create_outcome, Hhome in Hrun. cbn zeta in Hrun.
    destruct (document storage) as [stored|].
    + by destruct (ms_config stored).
    + by destruct data, options.
  - intros H. exists storage. by apply create_no_home.
Qed.

(** With a usable home location, [create] returns a client exactly when a
    configuration with a registration ([ms_config]) is stored, or nothing is
    stored and both [data] and [options] are supplied.  A stored
    configuration without registration makes the loading raise, whatever
    [data] and [options] are. *)
Theorem create_succeeds_iff (hass : HomeAssistant) (data : option EntryData)
    (options : option EntryOptions) (storage : Storage) :
  ¬ location_unset hass ->
  ¬ location_is_placeholder hass ->
  (exists client storage', create hass data options storage = (Ok client, storage'))
  <-> (exists stored, document storage = Some stored /\ is_Some (ms_config stored))
      \/ (document storage = None /\ is_Some data /\ is_Some options).
Proof.
  intros Hset Hreal. rewrite create_outcome, (usable_home _ Hset Hreal). cbn zeta.
  destruct (document storage) as [stored|].
  - destruct (ms_config stored) as [registration|] eqn:Hms.
    + split; [|eauto]. intros _. left. exists stored. rewrite Hms. eauto.
    + split; [by intros (client & storage' & [=])|].
      intros [(stored' & [= <-] & Hsome) | [[=] _]].
      rewrite Hms in Hsome. by destruct Hsome.
  - split.
    + intros (client & storage' & Hrun). right. split; [done|].
      by destruct data as [d|], options as [o|].
    + intros [(stored' & [=] & _) | (_ & [d ->] & [o ->])]. eauto.
Qed.

Lemma create_succeeds_iff_witness :
  (exists client storage',
     create (host_at 0 11) None None (storage_with (Some sample_config))
     = (Ok client, storage'))
  <-> (exists stored,
         document (storage_with (Some sample_config)) = Some stored
         /\ is_Some (ms_config stored))
      \/ (document (storage_with (Some sample_config)) = None
          /\ is_Some (@None EntryData) /\ is_Some (@None EntryOptions)).
Proof.
  apply (create_succeeds_iff (host_at 0 11) None None (storage_with (Some sample_config))).
  - intros [_ H]. discriminate H.
  - intros [H _]. discriminate H.
Defined.

(** When a configuration with a registration is stored, [create] ignores
    [data] altogether and returns a client with an empty cache whose
    configuration keeps the stored [tls_host] and [ms_config], takes the
    location of the host, and either keeps the stored [k], [max_depth] and
    sensors (no [options]) or takes [k] and [max_depth] from the options and
    the reconciled sensors; the store has been loaded once and holds the
    same document. *)
Theorem create_from_stored_configuration (hass : HomeAssistant)
    (data : option EntryData) (options : option EntryOptions) (storage : Storage)
    (stored : ClientConfig) :
  ¬ location_unset hass ->
  ¬ location_is_placeholder hass ->
  document storage = Some stored ->
  is_Some (ms_config stored) ->
  exists client,
    create hass data options storage
    = (Ok client,
       {| document := Some stored; journal := journal storage ++ [async_load] |})
    /\ (forall data', create hass data' options storage
                      = create hass data options storage)
    /\ _last_timestamps client = ∅
    /\ location (_config client) = hass_coordinate hass
    /\ tls_host (_config client) = tls_host stored
    /\ ms_config (_config client) = ms_config stored
    /\ match options with
       | None =>
           k (_config client) = k stored
           /\ max_depth (_config client) = max_depth stored
           /\ sensors (_config client) = sensors stored
       | Some o =>
           k (_config client) = k_privacy o
           /\ max_depth (_config client) = maximum_trixel_depth o
           /\ reconcile_sensors (sensors stored) o = Ok (sensors (_config client))
       end.
Proof.
  intros Hset Hreal Hdoc [registration Hms].
  assert (forall d, create hass d options storage
            = (Ok {| hass := hass;
                     _config :=
                       match options with
                       | None => set_location stored (hass_coordinate hass)
                       | Some o =>
                           set_sensors
                             (set_k_max_depth
                                (set_location stored (hass_coordinate hass))
                                (k_privacy o) (maximum_trixel_depth o))
                             (filter (still_desired o) (sensors stored)
                              ++ ((fun p => new_sensor (fst p) (snd p))
                                  <$> additions (sensors stored) o))
                       end;
                     _last_timestamps := ∅ |},
               {| document := Some stored;
                  journal := journal storage ++ [async_load] |})) as Hrun.
  { intros d. rewrite create_outcome, (usable_home _ Hset Hreal). cbn zeta.
    by rewrite Hdoc, Hms. }
  eexists. split; [apply Hrun|]. split; [intros data'; by rewrite !Hrun|].
  destruct options as [o|]; cbn.
  - rewrite reconcile_sensors_eq. repeat split; reflexivity.
  - repeat split; reflexivity.
Qed.

Lemma create_from_stored_configuration_witness :
  exists client,
    create (host_at 48 11) None None (storage_with (Some sample_config))
    = (Ok client, {| document := Some sample_config; journal := [async_load] |})
    /\ sensors (_config client) = [sensor_h]
    /\ tls_host (_config client) = "tls.example.org".
Proof.
  destruct (create_from_stored_configuration (host_at 48 11) None None
              (storage_with (Some sample_config)) sample_config)
    as (client & Hrun & _ & _ & _ & Htls & _ & _ & _ & Hsensors).
  - intros [H _]. discriminate H.
  - intros [H _]. discriminate H.
  - reflexivity.
  - eexists. reflexivity.
  - exists client. split; [exact Hrun|]. split; [exact Hsensors | exact Htls].
Defined.

(** A stored configuration that carries no registration cannot be loaded:
    [create] raises [TypeError] after the load, whatever [data] and
    [options] are, and no client comes out. *)
Theorem create_stored_without_registration (hass : HomeAssistant)
    (data : option EntryData) (options : option EntryOptions) (storage : Storage)
    (stored : ClientConfig) :
  ¬ location_unset hass ->
  ¬ location_is_placeholder hass ->
  document storage = Some stored ->
  ms_config stored = None ->
  create hass data options storage
  = (Raise TypeError,
     {| document := Some stored; journal := journal storage ++ [async_load] |}).
Proof.
  intros Hset Hreal Hdoc Hms.
  rewrite create_outcome, (usable_home _ Hset Hreal). cbn zeta.
  by rewrite Hdoc, Hms.
Qed.

Lemma create_stored_without_registration_witness :
  create (host_at 48 11) (Some sample_data) (Some (sample_options ["sensor.a"] []))
         (storage_with
            (Some {| location := {| latitude := 48; longitude := 11 |};
                     tls_host := "tls.example.org";
                     k := 3; max_depth := 24; ms_config := None;
                     sensors := [new_sensor AMBIENT_TEMPERATURE "sensor.a"] |}))
  = (Raise TypeError,
     {| document := Some {| location := {| latitude := 48; longitude := 11 |};
                            tls_host := "tls.example.org";
                            k := 3; max_depth := 24; ms_config := None;
                            sensors := [new_sensor AMBIENT_TEMPERATURE "sensor.a"] |};
        journal := [async_load] |}).
Proof.
  apply (create_stored_without_registration (host_at 48 11)).
  - intros [H _]. discriminate H.
  - intros [H _]. discriminate H.
  - reflexivity.
  - reflexivity.
Defined.

(** The reconciliation leaves a sensor list alone when every sensor is
    still desired and every desired entity id is supplied by a sensor. *)
Theorem reconcile_unchanged (E : list AnnotatedSensor) (D : EntryOptions) :
  Forall (still_desired D) E ->
  (forall m_type e_id, e_id ∈ desired D m_type ->
     exists s, s ∈ E /\ supplies m_type e_id s) ->
  reconcile_sensors E D = Ok E.
Proof.
  intros Hkeep Hall. rewrite reconcile_sensors_eq.
  rewrite (filter_Forall_id _ _ Hkeep).
  assert (additions E D = []) as ->.
  { apply elem_of_nil_inv. intros [m e] Hp.
    apply additions_unused in Hp as [Hin Hno].
    destruct (Hall m e Hin) as (s & Hs & Hsup). by apply (Hno s). }
  simpl. by rewrite app_nil_r.
Qed.

Lemma reconcile_unchanged_witness :
  reconcile_sensors [sensor_a; sensor_h] (sample_options ["sensor.a"] ["sensor.h"])
  = Ok [sensor_a; sensor_h].
Proof.
  apply (reconcile_unchanged [sensor_a; sensor_h]
           (sample_options ["sensor.a"] ["sensor.h"])).
  - repeat constructor.
  - intros [] e He; simpl in He; apply list_elem_of_singleton in He as ->.
    + exists sensor_a. split; [left | done].
    + exists sensor_h. split; [right; left | done].
Defined.

(** Without a stored configuration, [create] with [data] and [options]
    builds the configuration from them: the location of the host, the host
    name of [data], [k] and [max_depth] of the options, no registration, and
    one unregistered sensor per selected entity id, the temperature entities
    first, in the order of the options.  Reconciling that sensor list with
    the same options changes nothing. *)
Theorem create_fresh_configuration (hass : HomeAssistant) (data : EntryData)
    (options : EntryOptions) (storage : Storage) :
  ¬ location_unset hass ->
  ¬ location_is_placeholder hass ->
  document storage = None ->
  let fresh :=
    (new_sensor AMBIENT_TEMPERATURE <$> outdoor_temperature_sensors options)
    ++ (new_sensor RELATIVE_HUMIDITY <$> outdoor_relative_humidity_sensors options) in
  create hass (Some data) (Some options) storage
  = (Ok {| hass := hass;
           _config := {| location := hass_coordinate hass;
                         tls_host := trixel_lookup_service_host data;
                         k := k_privacy options;
                         max_depth := maximum_trixel_depth options;
                         ms_config := None;
                         sensors := fresh |};
           _last_timestamps := ∅ |},
     {| document := None; journal := journal storage ++ [async_load] |})
  /\ reconcile_sensors fresh options = Ok fresh.
Proof.
  intros Hset Hreal Hdoc fresh. split.
  - rewrite create_outcome, (usable_home _ Hset Hreal). cbn zeta.
    by rewrite Hdoc.
  - apply reconcile_unchanged.
    + apply Forall_app. split; apply Forall_fmap, Forall_forall;
        intros e He; unfold still_desired; simpl; by apply bool_decide_eq_true.
    + intros m e He. exists (new_sensor m e). split; [|done].
      apply elem_of_app. destruct m; [left | right]; by apply list_elem_of_fmap_2.
Qed.

Lemma create_fresh_configuration_witness :
  (create (host_at 48 11) (Some sample_data)
          (Some (sample_options ["sensor.a"] ["sensor.h"])) (storage_with None)).1
  = Ok {| hass := host_at 48 11;
          _config := {| location := {| latitude := 48; longitude := 11 |};
                        tls_host := "tls.example.org";
                        k := 3;
                        max_depth := 24;
                        ms_config := None;
                        sensors := [new_sensor AMBIENT_TEMPERATURE "sensor.a";
                                    new_sensor RELATIVE_HUMIDITY "sensor.h"] |};
          _last_timestamps := ∅ |}.
Proof.
  destruct (create_fresh_configuration (host_at 48 11) sample_data
              (sample_options ["sensor.a"] ["sensor.h"]) (storage_with None))
    as [Hrun _].
  - intros [H _]. discriminate H.
  - intros [H _]. discriminate H.
  - reflexivity.
  - rewrite Hrun. reflexivity.
Defined.

(** ** Reconciliation *)

(** After the reconciliation the configured pairs are exactly the desired
    ones: a sensor supplies [e_id] under [m_type] if and only if the options
    list [e_id] under [m_type]; every sensor has an entity id that is still
    desired under its type, so a type whose list is empty has no sensor
    left. *)
Theorem reconciled_pairs_are_desired (E E' : list AnnotatedSensor) (D : EntryOptions) :
  reconcile_sensors E D = Ok E' ->
  (forall m_type e_id,
     (exists s, s ∈ E' /\ supplies m_type e_id s) <-> e_id ∈ desired D m_type)
  /\ Forall (still_desired D) E'
  /\ (forall m_type, desired D m_type = [] ->
        Forall (fun s => measurement_type s ≠ m_type) E').
Proof.
  rewrite reconcile_sensors_eq. intros [= <-].
  assert (Forall (still_desired D)
            (filter (still_desired D) E
             ++ ((fun p => new_sensor (fst p) (snd p)) <$> additions E D))) as Hkeep.
  { apply Forall_forall. apply reconciled_still_desired. }
  split; [|split; [exact Hkeep|]].
  - intros m e. split.
    + intros (s & Hs & Hm & He).
      apply (proj1 (Forall_forall _ _) Hkeep) in Hs. unfold still_desired in Hs.
      rewrite Hm, He in Hs. by apply entity_id_in_Some.
    + intros Hin. apply entity_used_true. by apply reconciled_uses_desired.
  - intros m Hempty. eapply Forall_impl; [exact Hkeep|]. simpl.
    intros s Hs Hm. unfold still_desired in Hs. rewrite Hm, Hempty in Hs.
    destruct (entity_id s) as [e|]; [|done].
    apply entity_id_in_Some in Hs. by apply elem_of_nil in Hs.
Qed.

Lemma reconciled_pairs_are_desired_witness :
  (forall m_type e_id,
     (exists s, s ∈ [sensor_a; new_sensor AMBIENT_TEMPERATURE "sensor.b"]
                /\ supplies m_type e_id s)
     <-> e_id ∈ desired (sample_options ["sensor.a"; "sensor.b"] []) m_type)
  /\ Forall (still_desired (sample_options ["sensor.a"; "sensor.b"] []))
            [sensor_a; new_sensor AMBIENT_TEMPERATURE "sensor.b"]
  /\ (forall m_type,
        desired (sample_options ["sensor.a"; "sensor.b"] []) m_type = [] ->
        Forall (fun s => measurement_type s ≠ m_type)
               [sensor_a; new_sensor AMBIENT_TEMPERATURE "sensor.b"]).
Proof.
  apply (reconciled_pairs_are_desired [sensor_a; sensor_h]
           [sensor_a; new_sensor AMBIENT_TEMPERATURE "sensor.b"]
           (sample_options ["sensor.a"; "sensor.b"] [])).
  reflexivity.
Defined.

(** The shape of a reconciled sensor list: the sensors that are still
    desired come first, as they were (same records, hence same sensor ids,
    in the same order); the additions follow, each an unregistered sensor
    ([sensor_id] absent) for an entity id that no sensor used, the
    temperature entities before the humidity entities and each group in the
    order of the options. *)
Theorem reconciled_shape (E E' : list AnnotatedSensor) (D : EntryOptions) :
  reconcile_sensors E D = Ok E' ->
  E' = filter (still_desired D) E
       ++ (new_sensor AMBIENT_TEMPERATURE
             <$> filter (fun e_id => entity_used E AMBIENT_TEMPERATURE e_id = false)
                        (outdoor_temperature_sensors D))
       ++ (new_sensor RELATIVE_HUMIDITY
             <$> filter (fun e_id => entity_used E RELATIVE_HUMIDITY e_id = false)
                        (outdoor_relative_humidity_sensors D)).
Proof.
  rewrite reconcile_sensors_eq. intros [= <-]. f_equal.
  unfold additions, unused_entities.
  by rewrite fmap_app, <- !list_fmap_compose.
Qed.

Lemma reconciled_shape_witness :
  [sensor_a; new_sensor AMBIENT_TEMPERATURE "sensor.b"]
  = filter (still_desired (sample_options ["sensor.a"; "sensor.b"] []))
           [sensor_a; sensor_h]
    ++ (new_sensor AMBIENT_TEMPERATURE
          <$> filter (fun e_id =>
                        entity_used [sensor_a; sensor_h] AMBIENT_TEMPERATURE e_id = false)
                     ["sensor.a"; "sensor.b"])
    ++ (new_sensor RELATIVE_HUMIDITY
          <$> filter (fun e_id =>
                        entity_used [sensor_a; sensor_h] RELATIVE_HUMIDITY e_id = false)
                     []).
Proof.
  apply (reconciled_shape [sensor_a; sensor_h]
           [sensor_a; new_sensor AMBIENT_TEMPERATURE "sensor.b"]
           (sample_options ["sensor.a"; "sensor.b"] [])).
  reflexivity.
Defined.

(** ** Update production *)

Lemma get_updates_loop_skip (hass : HomeAssistant) (l : list AnnotatedSensor)
    (last_timestamps : gmap (option Z) Z) (updates : gmap (option Z) Update) :
  _get_updates_loop hass (filter (fun s => contributes hass s = true) l)
    last_timestamps updates
  = _get_updates_loop hass l last_timestamps updates.
Proof.
  revert last_timestamps updates.
  induction l as [|s l IH]; intros lt up; [done|].
  destruct (_get_updates_reading hass s) as [[[ts v]|]|e] eqn:Hread.
  - rewrite filter_cons_True by (unfold contributes; by rewrite Hread).
    simpl. rewrite Hread. destruct (bool_decide _); apply IH.
  - rewrite filter_cons_False by (unfold contributes; by rewrite Hread).
    simpl. rewrite Hread. apply IH.
  - rewrite filter_cons_True by (unfold contributes; by rewrite Hread).
    simpl. by rewrite Hread.
Qed.

(** Sensors that [_get_updates] skips (no state, wrong device class, wrong
    unit) count for nothing: the call yields the same batch, or the same
    exception, and leaves the same cache as if only the other sensors were
    configured. *)
Theorem get_updates_ignores_skipped (self : IntegrationPollingClient) :
  (_get_updates
     (with_sensors self
        (filter (fun s => contributes (hass self) s = true) (sensors (_config self))))).1
  = (_get_updates self).1
  /\ _last_timestamps
       (_get_updates
          (with_sensors self
             (filter (fun s => contributes (hass self) s = true)
                     (sensors (_config self))))).2
     = _last_timestamps (_get_updates self).2.
Proof.
  rewrite !get_updates_eq. cbn [fst snd with_sensors hass _config _last_timestamps
    set_sensors sensors set_last_timestamps].
  by rewrite get_updates_loop_skip.
Qed.

Lemma get_updates_loop_Raise (hass : HomeAssistant) (l : list AnnotatedSensor)
    (last_timestamps : gmap (option Z) Z) (updates : gmap (option Z) Update)
    (e : Exception) :
  (_get_updates_loop hass l last_timestamps updates).1 = Raise e ->
  exists pre s post,
    l = pre ++ s :: post
    /\ Forall (fun s => exists o, _get_updates_reading hass s = Ok o) pre
    /\ _get_updates_reading hass s = Raise e.
Proof.
  revert last_timestamps updates.
  induction l as [|s l IH]; intros lt up; simpl; [done|].
  destruct (_get_updates_reading hass s) as [[[ts v]|]|e'] eqn:Hread.
  - intros H.
    assert (exists lt' up', (_get_updates_loop hass l lt' up').1 = Raise e)
      as (lt' & up' & H') by (destruct (bool_decide _); eauto).
    destruct (IH _ _ H') as (pre & s' & post & -> & Hpre & Hs').
    exists (s :: pre), s', post. repeat split; [|done]. constructor; eauto.
  - intros H. destruct (IH _ _ H) as (pre & s' & post & -> & Hpre & Hs').
    exists (s :: pre), s', post. repeat split; [|done]. constructor; eauto.
  - simpl. intros [= ->]. exists [], s, l. repeat split; [constructor | done].
Qed.

(** [_get_updates] returns a batch exactly when no configured sensor makes
    the body of the loop raise; when it raises, the exception is the one of
    the first sensor, in configuration order, whose state raises. *)
Theorem get_updates_returns_batch_iff (self : IntegrationPollingClient) :
  ((exists u, (_get_updates self).1 = Ok u)
   <-> Forall (fun s => exists o, _get_updates_reading (hass self) s = Ok o)
              (sensors (_config self)))
  /\ forall e, (_get_updates self).1 = Raise e ->
       exists pre s post,
         sensors (_config self) = pre ++ s :: post
         /\ Forall (fun s => exists o, _get_updates_reading (hass self) s = Ok o) pre
         /\ _get_updates_reading (hass self) s = Raise e.
Proof.
  rewrite get_updates_eq. cbn [fst]. split.
  - apply get_updates_loop_Ok_iff.
  - intros e. apply get_updates_loop_Raise.
Qed.

(** The body of the loop raises [KeyError] exactly when the state of the
    sensor is there and lacks the [device_class] attribute, or has the
    device class of the measurement type on a temperature sensor and lacks
    the [unit_of_measurement] attribute. *)
Theorem reading_KeyError_iff (hass : HomeAssistant) (s : AnnotatedSensor) :
  _get_updates_reading hass s = Raise KeyError
  <-> exists st,
        states_get hass (entity_id s) = Some st
        /\ (attributes st !! ATTR_DEVICE_CLASS = None
            \/ (attributes st !! ATTR_DEVICE_CLASS
                = Some (MEASUREMENT_TYPE_DEVICE_CLASS_MAPPING (measurement_type s))
                /\ measurement_type s = AMBIENT_TEMPERATURE
                /\ attributes st !! ATTR_UNIT_OF_MEASUREMENT = None)).
Proof.
  split.
  - intros Hraise.
    destruct (states_get hass (entity_id s)) as [st|] eqn:Hst;
      [|by rewrite (reading_no_state _ _ Hst) in Hraise].
    exists st. split; [done|].
    destruct (attributes st !! ATTR_DEVICE_CLASS) as [dc|] eqn:Hdc; [|by left].
    right.
    destruct (decide (dc = MEASUREMENT_TYPE_DEVICE_CLASS_MAPPING (measurement_type s)))
      as [->|Hne].
    2:{ rewrite (reading_rejected _ _ st Hst) in Hraise; [done|]. left. eauto. }
    split; [done|].
    destruct (measurement_type s) eqn:Hm.
    + split; [done|].
      destruct (attributes st !! ATTR_UNIT_OF_MEASUREMENT) as [u|] eqn:Hu; [|done].
      exfalso.
      destruct (decide (u ∈ UnitOfTemperature)) as [Hin|Hnot].
      * assert (checks_pass s st) as Hpass.
        { split; [by rewrite Hm|]. intros _. eauto. }
        rewrite (reading_accepted _ _ _ Hst Hpass), Hm in Hraise.
        destruct (is_sentinel (state st)); [done|].
        unfold attributes_getitem in Hraise. rewrite Hu in Hraise.
        cbn [result_bind] in Hraise.
        destruct (state st) as [txt|q]; [done|].
        unfold TemperatureConverter_convert in Hraise.
        unfold UnitOfTemperature in Hin. rewrite !elem_of_cons in Hin.
        destruct Hin as [-> | [-> | [-> | Hnil]]];
          [done | done | done | by apply elem_of_nil in Hnil].
      * rewrite (reading_rejected _ _ st Hst) in Hraise; [done|].
        right. rewrite Hm. eauto.
    + exfalso. assert (checks_pass s st) as Hpass.
      { split; [by rewrite Hm|]. intros Hm'. congruence. }
      rewrite (reading_accepted _ _ _ Hst Hpass), Hm in Hraise.
      by destruct (is_sentinel (state st)).
  - intros (st & Hst & [Hdc | (Hdc & Hm & Hu)]).
    + by apply (reading_missing_device_class _ _ st).
    + unfold _get_updates_reading, attributes_getitem. rewrite Hst, Hdc.
      cbn [result_bind]. rewrite bool_decide_eq_true_2 by done. cbn [negb].
      rewrite (bool_decide_eq_true_2 _ Hm), Hu. done.
Qed.

Lemma get_updates_loop_recorded (hass : HomeAssistant)
    (before : gmap (option Z) Z) (l : list AnnotatedSensor)
    (last_timestamps : gmap (option Z) Z) (updates : gmap (option Z) Update) :
  (forall sid, match updates !! sid with
               | Some (ts, _) => last_timestamps !! sid = Some ts
               | None => last_timestamps !! sid = before !! sid
               end) ->
  forall u, (_get_updates_loop hass l last_timestamps updates).1 = Ok u ->
    forall sid, match u !! sid with
                | Some (ts, _) =>
                    (_get_updates_loop hass l last_timestamps updates).2 !! sid = Some ts
                | None =>
                    (_get_updates_loop hass l last_timestamps updates).2 !! sid
                    = before !! sid
                end.
Proof.
  revert last_timestamps updates.
  induction l as [|s l IH]; intros lt up Hinv u; simpl.
  - intros [= <-]. exact Hinv.
  - destruct (_get_updates_reading hass s) as [[[ts v]|]|e]; [|by apply IH|done].
    destruct (bool_decide _); [|by apply IH].
    apply IH. intros sid.
    destruct (decide (sensor_id s = sid)) as [<-|Hne].
    + by rewrite !lookup_insert_eq.
    + rewrite !lookup_insert_ne by done. apply Hinv.
Qed.

Lemma get_updates_loop_keys (hass : HomeAssistant) (l : list AnnotatedSensor)
    (last_timestamps : gmap (option Z) Z) (updates : gmap (option Z) Update) :
  forall u, (_get_updates_loop hass l last_timestamps updates).1 = Ok u ->
    forall sid entry, u !! sid = Some entry ->
      updates !! sid = Some entry
      \/ exists s, s ∈ l /\ sensor_id s = sid
                   /\ _get_updates_reading hass s = Ok (Some entry).
Proof.
  revert last_timestamps updates.
  induction l as [|s l IH]; intros lt up u; simpl.
  - intros [= <-]. auto.
  - destruct (_get_updates_reading hass s) as [[[ts v]|]|e] eqn:Hread; [| |done].
    + destruct (bool_decide _).
      * intros Hu sid entry Hentry.
        destruct (IH _ _ u Hu sid entry Hentry) as [Hins | (s' & Hs' & Hid & Hr)].
        -- destruct (decide (sensor_id s = sid)) as [Heq|Hne].
           ++ subst sid. rewrite lookup_insert_eq in Hins. injection Hins as <-.
              right. exists s. split; [left | done].
           ++ rewrite lookup_insert_ne in Hins by done. by left.
        -- right. exists s'. split; [by right | done].
      * intros Hu sid entry Hentry.
        destruct (IH _ _ u Hu sid entry Hentry) as [? | (s' & Hs' & Hid & Hr)];
          [by left|]. right. exists s'. split; [by right | done].
    + intros Hu sid entry Hentry.
      destruct (IH _ _ u Hu sid entry Hentry) as [? | (s' & Hs' & Hid & Hr)];
        [by left|]. right. exists s'. split; [by right | done].
Qed.

(** The batch and the cache agree after a call that returns a batch: every
    entry of the batch is the reading of a configured sensor with that
    sensor id, and its timestamp is the one the cache now holds for the id;
    an id without an entry has the cache entry it had before.  The call
    changes nothing else of the client. *)
Theorem get_updates_batch_recorded (self self' : IntegrationPollingClient)
    (u : gmap (option Z) Update) :
  _get_updates self = (Ok u, self') ->
  hass self' = hass self /\ _config self' = _config self
  /\ forall sid,
       match u !! sid with
       | Some (ts, value) =>
           _last_timestamps self' !! sid = Some ts
           /\ exists s, s ∈ sensors (_config self) /\ sensor_id s = sid
                        /\ _get_updates_reading (hass self) s = Ok (Some (ts, value))
       | None => _last_timestamps self' !! sid = _last_timestamps self !! sid
       end.
Proof.
  rewrite get_updates_eq. intros [= Hu <-]. split; [done|]. split; [done|].
  intros sid. cbn [set_last_timestamps _last_timestamps].
  pose proof (get_updates_loop_recorded (hass self) (_last_timestamps self)
                (sensors (_config self)) (_last_timestamps self) ∅) as Hrec.
  specialize (Hrec (fun sid => ltac:(by rewrite lookup_empty)) u Hu sid).
  destruct (u !! sid) as [[ts v]|] eqn:Hentry; [|done].
  split; [done|].
  destruct (get_updates_loop_keys _ _ _ _ u Hu sid (ts, v) Hentry)
    as [Hempty | H]; [by rewrite lookup_empty in Hempty | done].
Qed.

Lemma get_updates_batch_recorded_witness :
  match (_get_updates (two_sensor_client (states_with_temperature (PyFloat 32)))).1 with
  | Ok u =>
      match u !! Some 2 with
      | Some (ts, _) =>
          _last_timestamps
            (_get_updates (two_sensor_client (states_with_temperature (PyFloat 32)))).2
          !! Some 2 = Some ts
      | None => True
      end
  | Raise _ => False
  end.
Proof.
  destruct (_get_updates (two_sensor_client (states_with_temperature (PyFloat 32))))
    as [[u|e] self'] eqn:Hrun; cbn [fst snd].
  - destruct (get_updates_batch_recorded
                (two_sensor_client (states_with_temperature (PyFloat 32))) self' u Hrun)
      as (_ & _ & Hrec).
    specialize (Hrec (Some 2)). destruct (u !! Some 2) as [[ts v]|]; [|exact I].
    exact (proj1 Hrec).
  - vm_compute in Hrun. discriminate Hrun.
Defined.

Lemma get_updates_loop_all_suppressed (hass : HomeAssistant)
    (l : list AnnotatedSensor) (last_timestamps : gmap (option Z) Z)
    (updates : gmap (option Z) Update) :
  Forall (fun s =>
            _get_updates_reading hass s = Ok None
            \/ exists v, _get_updates_reading hass s
                         = Ok (Some (default 0 (last_timestamps !! sensor_id s), v)))
         l ->
  _get_updates_loop hass l last_timestamps updates = (Ok updates, last_timestamps).
Proof.
  induction 1 as [|s l Hs Hl IH]; simpl; [done|].
  destruct Hs as [-> | [v ->]]; [done|].
  by rewrite bool_decide_eq_false_2 by auto.
Qed.

Lemma NoDup_id_not_shared (pre post : list AnnotatedSensor) (s : AnnotatedSensor) :
  NoDup (sensor_id <$> (pre ++ s :: post)) ->
  id_not_shared (sensor_id s) (pre ++ post).
Proof.
  rewrite fmap_app, fmap_cons. intros Hnd.
  apply NoDup_app in Hnd as (_ & Hdisj & Hpost).
  apply NoDup_cons in Hpost as [Hnot _].
  unfold id_not_shared. apply Forall_app. split; apply Forall_forall; intros s' Hs' Heq.
  - apply (Hdisj (sensor_id s')); [by apply list_elem_of_fmap_2|].
    rewrite Heq. left.
  - apply Hnot. rewrite <- Heq. by apply list_elem_of_fmap_2.
Qed.

(** With pairwise different sensor ids, polling an unchanged host a second
    time yields an empty batch and leaves the client as it is: after a call
    that returned a batch, the next call on the same states returns the
    empty batch. *)
Theorem get_updates_again_is_empty (self self' : IntegrationPollingClient)
    (u : gmap (option Z) Update) :
  NoDup (sensor_id <$> sensors (_config self)) ->
  _get_updates self = (Ok u, self') ->
  _get_updates self' = (Ok ∅, self').
Proof.
  intros Hnd Hrun.
  assert (Forall (fun s => exists o, _get_updates_reading (hass self) s = Ok o)
            (sensors (_config self))) as Hok.
  { apply (get_updates_loop_Ok_iff _ _ (_last_timestamps self) ∅).
    exists u. rewrite get_updates_eq in Hrun. by injection Hrun as -> _. }
  assert (Forall (fun s =>
            _get_updates_reading (hass self) s = Ok None
            \/ exists v, _get_updates_reading (hass self) s
                 = Ok (Some (default 0 (_last_timestamps self' !! sensor_id s), v)))
            (sensors (_config self))) as Hsup.
  { apply Forall_forall. intros s Hs.
    destruct (proj1 (Forall_forall _ _) Hok s Hs) as [[[ts v]|] Hread]; [|by left].
    right. exists v.
    apply list_elem_of_split in Hs as (pre & post & Hsplit).
    rewrite Hsplit in Hnd. apply NoDup_id_not_shared in Hnd.
    destruct (get_updates_dedup self pre post s Hsplit Hnd ts v u self' Hread Hrun)
      as [_ ->]. done. }
  pose proof Hrun as Hrun'. rewrite get_updates_eq in Hrun'.
  injection Hrun' as _ <-.
  rewrite get_updates_eq.
  cbn [set_last_timestamps hass _config _last_timestamps] in *.
  by rewrite (get_updates_loop_all_suppressed _ _ _ ∅ Hsup).
Qed.

Lemma get_updates_again_is_empty_witness :
  (_get_updates
     (_get_updates (two_sensor_client (states_with_temperature (PyFloat 32)))).2).1
  = Ok ∅.
Proof.
  destruct (_get_updates (two_sensor_client (states_with_temperature (PyFloat 32))))
    as [[u|e] self'] eqn:Hrun; cbn [snd].
  - rewrite (get_updates_again_is_empty
               (two_sensor_client (states_with_temperature (PyFloat 32))) self' u);
      [reflexivity | | exact Hrun].
    apply (bool_decide_unpack _). vm_compute. exact I.
  - vm_compute in Hrun. discriminate Hrun.
Defined.

(** ** The config flow helpers *)

Lemma sum_list_zero (l : list nat) : sum_list l = 0%nat <-> Forall (fun n => n = 0%nat) l.
Proof.
  induction l as [|n l IH]; simpl.
  - split; [constructor | done].
  - rewrite Forall_cons, <- IH. lia.
Qed.

(** [validate_sensor_count] accepts the selection exactly when some key
    holds a non-empty list; otherwise (no key at all, or empty lists only)
    it returns the error [not_enough_sensors] under [base]. *)
Theorem validate_sensor_count_accepts_iff (user_input : gmap string (list string)) :
  (validate_sensor_count user_input = None
   <-> exists key ids, user_input !! key = Some ids /\ ids ≠ [])
  /\ (validate_sensor_count user_input ≠ None ->
      validate_sensor_count user_input = Some {["base" := "not_enough_sensors"]}).
Proof.
  unfold validate_sensor_count.
  destruct (bool_decide _) eqn:Hcount.
  - split; [|done]. split; [done|]. intros (key & ids & Hkey & Hne). exfalso.
    apply bool_decide_eq_true, sum_list_zero in Hcount.
    rewrite Forall_fmap, Forall_fmap, Forall_forall in Hcount.
    specialize (Hcount (key, ids)). simpl in Hcount.
    destruct ids; [done|]. discriminate Hcount. by apply elem_of_map_to_list.
  - split; [|done]. split; [|done]. intros _.
    apply bool_decide_eq_false in Hcount. rewrite sum_list_zero in Hcount.
    apply not_Forall_Exists in Hcount; [|apply _].
    apply Exists_exists in Hcount as (n & Hn & Hne).
    apply list_elem_of_fmap in Hn as (ids & -> & Hids).
    apply list_elem_of_fmap in Hids as ([key ids'] & -> & Hin).
    apply elem_of_map_to_list in Hin. exists key, ids'. split; [done|].
    simpl in Hne. by destruct ids'.
Qed.

Lemma lookup_filter_keys {V : Type} (m : gmap string V) (keys : list string)
    (key : string) :
  filter (fun kv => kv.1 ∈ keys) m !! key
  = if decide (key ∈ keys) then m !! key else None.
Proof.
  rewrite map_lookup_filter. destruct (m !! key) as [v|]; simpl.
  - destruct (decide (key ∈ keys)).
    + by rewrite option_guard_True.
    + by rewrite option_guard_False.
  - by destruct (decide (key ∈ keys)).
Qed.

Lemma dict_of_keys_fold {V : Type} (user_config : gmap string V) (keys : list string)
    (acc : Result (gmap string V)) :
  fold_left
    (fun acc key =>
       try! d := acc in
       match user_config !! key with
       | Some v => Ok (<[key := v]> d)
       | None => Raise KeyError
       end)
    keys acc
  = match acc with
    | Ok d =>
        if decide (Forall (fun key => is_Some (user_config !! key)) keys)
        then Ok (filter (fun kv => kv.1 ∈ keys) user_config ∪ d)
        else Raise KeyError
    | Raise e => Raise e
    end.
Proof.
  revert acc. induction keys as [|key keys IH]; intros acc.
  - cbn [fold_left]. destruct acc as [d|e]; [|done].
    rewrite decide_True by constructor. f_equal.
    apply map_eq. intros k. rewrite lookup_union, lookup_filter_keys.
    rewrite decide_False by apply not_elem_of_nil. by destruct (d !! k).
  - cbn [fold_left]. rewrite IH. destruct acc as [d|e]; [|done]. cbn [result_bind].
    destruct (user_config !! key) as [v|] eqn:Hkey.
    + destruct (decide (Forall (fun key => is_Some (user_config !! key)) keys))
        as [Hall|Hnot].
      * rewrite decide_True by (constructor; eauto). f_equal.
        apply map_eq. intros k.
        rewrite !lookup_union, !lookup_filter_keys.
        destruct (decide (k = key)) as [->|Hne].
        -- rewrite lookup_insert_eq, Hkey.
           rewrite (decide_True (P := key ∈ key :: keys)) by left.
           destruct (decide (key ∈ keys)); by destruct (d !! key).
        -- rewrite lookup_insert_ne by done.
           destruct (decide (k ∈ keys)) as [Hin|Hnin].
           ++ by rewrite (decide_True (P := k ∈ key :: keys)) by (by right).
           ++ rewrite (decide_False (P := k ∈ key :: keys)); [done|].
              intros [?|?]%elem_of_cons; done.
      * rewrite decide_False; [done|]. intros Hall. apply Hnot.
        by apply Forall_cons in Hall as [_ ?].
    + rewrite decide_False; [done|]. intros Hall.
      apply Forall_cons in Hall as [[? Hsome] _]. congruence.
Qed.

Lemma dict_of_keys_eq {V : Type} (user_config : gmap string V) (keys : list string) :
  dict_of_keys user_config keys
  = if decide (Forall (fun key => is_Some (user_config !! key)) keys)
    then Ok (filter (fun kv => kv.1 ∈ keys) user_config)
    else Raise KeyError.
Proof.
  unfold dict_of_keys. rewrite dict_of_keys_fold.
  destruct (decide _); [|done]. f_equal. apply map_eq. intros k.
  rewrite lookup_union, lookup_empty. by destruct (filter _ _ !! k).
Qed.

Lemma dict_of_data_keys {V : Type} (user_config : gmap string V) :
  dict_of_keys user_config (elements (dom user_config ∩ data_keys))
  = Ok (filter (fun kv => kv.1 ∈ elements (dom user_config ∩ data_keys)) user_config).
Proof.
  rewrite dict_of_keys_eq. rewrite decide_True; [done|].
  apply Forall_forall. intros key Hkey. apply elem_of_elements in Hkey.
  apply elem_of_dom. set_solver.
Qed.

(** When [user_config] has the three data keys, [retrieve_data_and_options]
    splits it in two: [data] holds exactly the entries under the data keys,
    [options] exactly the other entries; together they are [user_config]
    again and they share no key. *)
Theorem retrieve_data_and_options_splits {V : Type} (user_config : gmap string V) :
  data_keys ⊆ dom user_config ->
  exists data options,
    retrieve_data_and_options user_config = Ok (data, options)
    /\ (forall key, data !! key
                    = if decide (key ∈ data_keys) then user_config !! key else None)
    /\ (forall key, options !! key
                    = if decide (key ∈ data_keys) then None else user_config !! key)
    /\ data ∪ options = user_config
    /\ data ##ₘ options.
Proof.
  intros Hkeys. unfold retrieve_data_and_options.
  rewrite dict_of_data_keys. cbn [result_bind].
  rewrite dict_of_keys_eq. rewrite decide_True.
  2:{ apply Forall_forall. intros key Hkey. apply elem_of_elements in Hkey.
      apply elem_of_dom. set_solver. }
  cbn [result_bind]. do 2 eexists. split; [reflexivity|].
  assert (forall key,
            filter (fun kv : string * V =>
                      kv.1 ∈ elements (dom user_config ∩ data_keys)) user_config !! key
            = if decide (key ∈ data_keys) then user_config !! key else None) as Hdata.
  { intros key. rewrite lookup_filter_keys.
    destruct (decide (key ∈ data_keys)) as [Hin|Hnin].
    - rewrite decide_True; [done|]. apply elem_of_elements. set_solver.
    - rewrite decide_False; [done|]. rewrite elem_of_elements. set_solver. }
  assert (forall key,
            filter (fun kv : string * V =>
                      kv.1 ∈ elements ((dom user_config ∖ data_keys)
                                       ∪ (data_keys ∖ dom user_config)))
                   user_config !! key
            = if decide (key ∈ data_keys) then None else user_config !! key) as Hopt.
  { intros key. rewrite lookup_filter_keys.
    destruct (decide (key ∈ data_keys)) as [Hin|Hnin].
    - rewrite decide_False; [done|]. rewrite elem_of_elements. set_solver.
    - destruct (user_config !! key) as [v|] eqn:Hv; [|by destruct (decide _)].
      rewrite decide_True; [done|]. apply elem_of_elements.
      assert (key ∈ dom user_config) by (apply elem_of_dom; eauto). set_solver. }
  split; [exact Hdata|]. split; [exact Hopt|]. split.
  - apply map_eq. intros key. rewrite lookup_union, Hdata, Hopt.
    destruct (decide (key ∈ data_keys)); by destruct (user_config !! key).
  - apply map_disjoint_spec. intros key v w Hv Hw.
    rewrite Hdata in Hv. rewrite Hopt in Hw.
    by destruct (decide (key ∈ data_keys)).
Qed.

Lemma retrieve_data_and_options_splits_witness :
  exists data options,
    retrieve_data_and_options
      ({[CONF_TLS_HOST := 1; CONF_TLS_USE_HTTPS := 2; CONF_TMS_USE_HTTPS := 3;
         CONF_K_REQUIREMENT := 4]} : gmap string Z)
    = Ok (data, options)
    /\ data !! CONF_TLS_HOST = Some 1
    /\ options !! CONF_K_REQUIREMENT = Some 4
    /\ options !! CONF_TLS_HOST = None.
Proof.
  destruct (retrieve_data_and_options_splits
              ({[CONF_TLS_HOST := 1; CONF_TLS_USE_HTTPS := 2; CONF_TMS_USE_HTTPS := 3;
                 CONF_K_REQUIREMENT := 4]} : gmap string Z))
    as (data & options & Hrun & Hdata & Hopt & _).
  - apply (bool_decide_unpack _). vm_compute. exact I.
  - exists data, options. split; [exact Hrun|].
    rewrite (Hdata CONF_TLS_HOST), (Hopt CONF_K_REQUIREMENT), (Hopt CONF_TLS_HOST).
    repeat split.
Defined.

(** When [user_config] lacks one of the three data keys,
    [retrieve_data_and_options] raises [KeyError]: the missing key is in the
    symmetric difference that selects the keys of [options], and is then
    looked up in [user_config]. *)
Theorem retrieve_data_and_options_missing_key {V : Type}
    (user_config : gmap string V) (key : string) :
  key ∈ data_keys ->
  user_config !! key = None ->
  retrieve_data_and_options user_config = Raise KeyError.
Proof.
  intros Hkey Hnone. unfold retrieve_data_and_options.
  rewrite dict_of_data_keys. cbn [result_bind].
  rewrite dict_of_keys_eq. rewrite decide_False; [done|].
  intros Hall. rewrite Forall_forall in Hall.
  destruct (Hall key) as [v Hv]; [|congruence].
  apply elem_of_elements. apply not_elem_of_dom in Hnone. set_solver.
Qed.

Lemma retrieve_data_and_options_missing_key_witness :
  retrieve_data_and_options
    ({[CONF_TLS_HOST := 1; CONF_TLS_USE_HTTPS := 2; CONF_K_REQUIREMENT := 4]}
     : gmap string Z)
  = Raise KeyError.
Proof.
  apply (retrieve_data_and_options_missing_key _ CONF_TMS_USE_HTTPS).
  - apply (bool_decide_unpack _). vm_compute. exact I.
  - reflexivity.
Defined.

(** ** Removal of the entry *)

Lemma create_for_removal (hass : HomeAssistant) (storage : Storage) :
  create hass None None storage
  = if no_home hass then (Raise NoHomeError, storage)
    else match document storage with
         | Some stored =>
             match ms_config stored with
             | None =>
                 (Raise TypeError,
                  {| document := Some stored;
                     journal := journal storage ++ [async_load] |})
             | Some _ =>
                 (Ok {| hass := hass;
                        _config := set_location stored (hass_coordinate hass);
                        _last_timestamps := ∅ |},
                  {| document := Some stored;
                     journal := journal storage ++ [async_load] |})
             end
         | None =>
             (Raise NoExistingConfigurationError,
              {| document := None; journal := journal storage ++ [async_load] |})
         end.
Proof.
  rewrite create_outcome. destruct (no_home hass); [done|]. cbn zeta.
  destruct (document storage) as [stored|]; [|done].
  by destruct (ms_config stored).
Qed.

(** [async_remove_entry] purges the stored configuration whatever the
    removal from the network does, as long as the stored configuration, if
    there is one, carries a registration and [PollingClient.run] returns or
    raises a [BaseError]: nothing escapes, the document is gone and the last
    storage operation is the removal.  The client library is asked to run
    only if a configuration was stored and the host has a home, and then in
    deletion mode: without update producer, with no retry. *)
Theorem async_remove_entry_purges (super_run : PollingClient_run)
    (hass : HomeAssistant) (storage : Storage) :
  (forall stored, document storage = Some stored -> is_Some (ms_config stored)) ->
  (forall client arguments st e,
     (super_run client arguments st).1 = Some e -> e = BaseError) ->
  exists storage',
    async_remove_entry super_run hass storage = (None, storage')
    /\ document storage' = None
    /\ last (journal storage') = Some async_remove
    /\ forall other_run : PollingClient_run,
         (document storage = None \/ no_home hass = true
          \/ forall client arguments st,
               get_updates arguments = None -> delete arguments = true ->
               max_retries arguments = 0 ->
               other_run client arguments st = super_run client arguments st) ->
         async_remove_entry other_run hass storage
         = async_remove_entry super_run hass storage.
Proof.
  intros Hregistered Hbase. unfold async_remove_entry. rewrite create_for_removal.
  destruct (no_home hass) eqn:Hhome.
  { cbn [caught_on_removal]. unfold store_async_remove.
    eexists. split; [reflexivity|]. split; [done|].
    split; [cbn [journal]; apply last_snoc | done]. }
  destruct (document storage) as [stored|] eqn:Hdoc.
  2:{ cbn [caught_on_removal]. unfold store_async_remove.
      eexists. split; [reflexivity|]. split; [done|].
      split; [cbn [journal]; apply last_snoc | done]. }
  destruct (Hregistered stored eq_refl) as [registration Hms]. rewrite Hms.
  unfold run. cbn [negb].
  set (client := {| hass := hass; _config := set_location stored (hass_coordinate hass);
                    _last_timestamps := ∅ |}).
  set (arguments := {| get_updates := None; retry_interval := 30; max_retries := 0;
                       polling_interval := 60; delete := true |}).
  set (st := {| document := Some stored; journal := journal storage ++ [async_load] |}).
  assert (exists storage',
            (let '(attempt, storage0) := super_run client arguments st in
             match attempt with
             | Some e =>
                 if caught_on_removal e
                 then let '(_, storage1) := store_async_remove storage0 in
                      (None, storage1)
                 else (Some e, storage0)
             | None => let '(_, storage1) := store_async_remove storage0 in
                       (None, storage1)
             end) = (None, storage')
            /\ document storage' = None
            /\ last (journal storage') = Some async_remove) as (storage' & H1 & H2 & H3).
  { pose proof (Hbase client arguments st) as Hb.
    destruct (super_run client arguments st) as [[e|] st1]; cbn [fst] in Hb.
    - rewrite (Hb e eq_refl). cbn [caught_on_removal]. unfold store_async_remove.
      eexists. split; [reflexivity|].
      split; [done | cbn [journal]; apply last_snoc].
    - unfold store_async_remove. eexists. split; [reflexivity|].
      split; [done | cbn [journal]; apply last_snoc]. }
  exists storage'. split; [exact H1|]. split; [exact H2|]. split; [exact H3|].
  intros other_run [Hnone | [Htrue | Hsame]]; [done | done |].
  by rewrite (Hsame client arguments st).
Qed.

Lemma async_remove_entry_purges_witness :
  exists storage',
    async_remove_entry (fun _ _ st => (Some BaseError, st)) (host_at 48 11)
                       (storage_with (Some sample_config))
    = (None, storage')
    /\ document storage' = None
    /\ last (journal storage') = Some async_remove.
Proof.
  destruct (async_remove_entry_purges (fun _ _ st => (Some BaseError, st))
              (host_at 48 11) (storage_with (Some sample_config)))
    as (storage' & H1 & H2 & H3 & _).
  - intros stored [= <-]. eexists. reflexivity.
  - intros client arguments st e [= <-]. reflexivity.
  - exists storage'. split; [exact H1|]. split; [exact H2 | exact H3].
Defined.

(** When a configuration with a registration is stored and the host has a
    home, an exception of [PollingClient.run] that [async_remove_entry] does
    not catch escapes it, and the stored configuration is then not
    removed. *)
Theorem async_remove_entry_escape (super_run : PollingClient_run)
    (hass : HomeAssistant) (storage : Storage) (stored : ClientConfig)
    (e : Escaped) (st : Storage) :
  ¬ location_unset hass ->
  ¬ location_is_placeholder hass ->
  document storage = Some stored ->
  is_Some (ms_config stored) ->
  (forall client arguments st0, super_run client arguments st0 = (Some e, st)) ->
  caught_on_removal e = false ->
  async_remove_entry super_run hass storage = (Some e, st).
Proof.
  intros Hset Hreal Hdoc [registration Hms] Hrun Hcaught.
  unfold async_remove_entry. rewrite create_for_removal.
  rewrite (usable_home _ Hset Hreal), Hdoc, Hms. unfold run. rewrite Hrun.
  by rewrite Hcaught.
Qed.

Lemma async_remove_entry_escape_witness :
  async_remove_entry
    (fun _ _ st => (Some (Exception_of ValueError), storage_with (Some sample_config)))
    (host_at 48 11) (storage_with (Some sample_config))
  = (Some (Exception_of ValueError), storage_with (Some sample_config)).
Proof.
  apply (async_remove_entry_escape _ (host_at 48 11)
           (storage_with (Some sample_config)) sample_config).
  - intros [H _]. discriminate H.
  - intros [H _]. discriminate H.
  - reflexivity.
  - eexists. reflexivity.
  - reflexivity.
  - reflexivity.
Defined.

(** A stored configuration that carries no registration defeats the
    removal: the [TypeError] of the loading is not among the exceptions
    [async_remove_entry] catches, so it escapes, the client library is not
    asked to run, and the stored configuration stays. *)
Theorem async_remove_entry_without_registration (super_run : PollingClient_run)
    (hass : HomeAssistant) (storage : Storage) (stored : ClientConfig) :
  ¬ location_unset hass ->
  ¬ location_is_placeholder hass ->
  document storage = Some stored ->
  ms_config stored = None ->
  async_remove_entry super_run hass storage
  = (Some (Exception_of TypeError),
     {| document := Some stored; journal := journal storage ++ [async_load] |}).
Proof.
  intros Hset Hreal Hdoc Hms.
  unfold async_remove_entry. rewrite create_for_removal.
  by rewrite (usable_home _ Hset Hreal), Hdoc, Hms.
Qed.

Lemma async_remove_entry_without_registration_witness :
  async_remove_entry (fun _ _ st => (None, st)) (host_at 48 11)
    (storage_with (Some {| location := {| latitude := 48; longitude := 11 |};
                           tls_host := "tls.example.org";
                           k := 3; max_depth := 24; ms_config := None;
                           sensors := [new_sensor AMBIENT_TEMPERATURE "sensor.a"] |}))
  = (Some (Exception_of TypeError),
     {| document := Some {| location := {| latitude := 48; longitude := 11 |};
                            tls_host := "tls.example.org";
                            k := 3; max_depth := 24; ms_config := None;
                            sensors := [new_sensor AMBIENT_TEMPERATURE "sensor.a"] |};
        journal := [async_load] |}).
Proof.
  apply (async_remove_entry_without_registration _ (host_at 48 11)).
  - intros [H _]. discriminate H.
  - intros [H _]. discriminate H.
  - reflexivity.
  - reflexivity.
Defined.

(** ** The measurement timestamp *)

Lemma Qfloor_between (x : Q) (n : Z) :
  (inject_Z n <= x)%Q -> (x < inject_Z n + 1)%Q -> Qfloor x = n.
Proof.
  intros Hle Hlt.
  pose proof (Qfloor_le x) as Hfl. pose proof (Qlt_floor x) as Hfu.
  rewrite inject_Z_plus in Hfu. change (inject_Z 1) with 1%Q in Hfu.
  assert (Qfloor x < n + 1)%Z.
  { rewrite Zlt_Qlt, inject_Z_plus. change (inject_Z 1) with 1%Q. lra. }
  assert (n < Qfloor x + 1)%Z.
  { rewrite Zlt_Qlt, inject_Z_plus. change (inject_Z 1) with 1%Q. lra. }
  lia.
Qed.

(** The timestamp of a measurement is the whole second nearest to the time
    the state was reported at: it is off by at most half a second, a time on
    a whole second is kept, and a time halfway between two seconds goes to
    the even one. *)
Theorem measurement_timestamp_nearest_second (st : State) :
  (Qabs (inject_Z (measurement_timestamp st) - last_reported st) <= 1 # 2)%Q
  /\ (forall n : Z, (last_reported st == inject_Z n)%Q -> measurement_timestamp st = n)
  /\ (forall n : Z, (last_reported st == inject_Z n + (1 # 2))%Q ->
        measurement_timestamp st = if Z.even n then n else n + 1).
Proof.
  unfold measurement_timestamp, py_round. set (x := last_reported st).
  pose proof (Qfloor_le x) as Hle. pose proof (Qlt_floor x) as Hlt.
  rewrite inject_Z_plus in Hlt. change (inject_Z 1) with 1%Q in Hlt.
  split; [|split].
  - apply Qabs_Qle_condition.
    destruct (x - inject_Z (Qfloor x) ?= 1 # 2)%Q eqn:Hc.
    + apply Qeq_alt in Hc.
      destruct (Z.even (Qfloor x));
        [|rewrite inject_Z_plus; change (inject_Z 1) with 1%Q]; split; lra.
    + apply Qlt_alt in Hc. split; lra.
    + apply Qgt_alt in Hc. rewrite inject_Z_plus. change (inject_Z 1) with 1%Q.
      split; lra.
  - intros n Hx.
    assert (Qfloor x = n) as -> by (apply Qfloor_between; lra).
    assert ((x - inject_Z n ?= 1 # 2)%Q = Lt) as ->; [|done].
    apply (proj1 (Qlt_alt _ _)). lra.
  - intros n Hx.
    assert (Qfloor x = n) as -> by (apply Qfloor_between; lra).
    assert ((x - inject_Z n ?= 1 # 2)%Q = Eq) as ->; [|done].
    apply (proj1 (Qeq_alt _ _)). lra.
Qed.

(** A relative-humidity sensor whose state has the humidity device class is
    never turned down and never converted: whatever the unit attribute (or
    its absence) and whatever the state value, the sensor contributes the
    value as it is, or null for a sentinel. *)
Theorem humidity_reading_passthrough (hass : HomeAssistant) (s : AnnotatedSensor)
    (st : State) :
  measurement_type s = RELATIVE_HUMIDITY ->
  states_get hass (entity_id s) = Some st ->
  attributes st !! ATTR_DEVICE_CLASS = Some SensorDeviceClass_HUMIDITY ->
  _get_updates_reading hass s
  = Ok (Some (measurement_timestamp st,
              if is_sentinel (state st) then None else Some (state st))).
Proof.
  intros Hm Hst Hdc.
  assert (checks_pass s st) as Hpass.
  { split; [by rewrite Hm|]. intros Hm'. congruence. }
  rewrite (reading_accepted _ _ _ Hst Hpass), Hm.
  by destruct (is_sentinel (state st)).
Qed.

Lemma humidity_reading_passthrough_witness :
  _get_updates_reading
    {| config_latitude := 48; config_longitude := 11;
       states := {["sensor.h" := humidity_state 50 100]} |}
    sensor_h
  = Ok (Some (100, Some (PyFloat 50))).
Proof.
  exact (humidity_reading_passthrough
           {| config_latitude := 48; config_longitude := 11;
              states := {["sensor.h" := humidity_state 50 100]} |}
           sensor_h (humidity_state 50 100) eq_refl eq_refl eq_refl).
Defined.

(** On an ambient-temperature sensor whose state carries a device class and
    a unit that is no temperature unit, [_get_updates] skips the sensor
    whatever the state value is, text or number: the call holds no entry for
    its sensor id and leaves the cache entry of that id as it was. *)
Theorem unrecognised_unit_skipped (self : IntegrationPollingClient)
    (pre post : list AnnotatedSensor) (s : AnnotatedSensor) (st : State)
    (device_class unit : string) :
  sensors (_config self) = pre ++ s :: post ->
  id_not_shared (sensor_id s) (pre ++ post) ->
  measurement_type s = AMBIENT_TEMPERATURE ->
  states_get (hass self) (entity_id s) = Some st ->
  attributes st !! ATTR_DEVICE_CLASS = Some device_class ->
  attributes st !! ATTR_UNIT_OF_MEASUREMENT = Some unit ->
  unit ∉ UnitOfTemperature ->
  _get_updates_reading (hass self) s = Ok None
  /\ emitted (sensor_id s) (_get_updates self).1 = false
  /\ _last_timestamps (_get_updates self).2 !! sensor_id s
     = _last_timestamps self !! sensor_id s.
Proof.
  intros Hconf Hothers Hm Hst Hdc Hunit Hnot.
  assert (_get_updates_reading (hass self) s = Ok None) as Hread.
  { apply (reading_rejected _ _ st Hst).
    destruct (decide (device_class
                      = MEASUREMENT_TYPE_DEVICE_CLASS_MAPPING (measurement_type s)))
      as [Heq|Hne].
    - right. rewrite <- Heq. eauto.
    - left. eauto. }
  split; [done|].
  destruct (_get_updates self) as [r self'] eqn:Hrun.
  exact (get_updates_suppressed self pre post s Hconf Hothers r self'
           (or_introl Hread) Hrun).
Qed.

Lemma unrecognised_unit_skipped_witness :
  _get_updates_reading
    (hass (two_sensor_client
             {["sensor.h" := humidity_state 50 100;
               "sensor.a" := temperature_state (PyStr "20") "mph" 101]}))
    sensor_a
  = Ok None
  /\ emitted (Some 1)
       (_get_updates
          (two_sensor_client
             {["sensor.h" := humidity_state 50 100;
               "sensor.a" := temperature_state (PyStr "20") "mph" 101]})).1
     = false
  /\ _last_timestamps
       (_get_updates
          (two_sensor_client
             {["sensor.h" := humidity_state 50 100;
               "sensor.a" := temperature_state (PyStr "20") "mph" 101]})).2
     !! Some 1 = None.
Proof.
  apply (unrecognised_unit_skipped
           (two_sensor_client
              {["sensor.h" := humidity_state 50 100;
                "sensor.a" := temperature_state (PyStr "20") "mph" 101]})
           [sensor_h] [] sensor_a (temperature_state (PyStr "20") "mph" 101)
           SensorDeviceClass_TEMPERATURE "mph").
  - reflexivity.
  - repeat constructor. discriminate.
  - reflexivity.
  - reflexivity.
  - reflexivity.
  - reflexivity.
  - apply (bool_decide_unpack _). vm_compute. exact I.
Defined.
